(** * CipherMessage relay server ([server.js]): model and verified properties

    The server keeps two global [Map]s, [users] and [messageQueue], and
    reacts to WebSocket events.  Every handler runs to completion before the
    next event is looked at, so a handler is a function from the server state
    to a new state together with the frames it handed to the transport. *)

From Stdlib Require Import QArith.Qcanon.
From stdpp Require Import gmap strings list fin_maps.

Local Open Scope Z_scope.

(** ** JavaScript values and containers *)

Module JS.

(** The values a field of a parsed JSON message can hold.  A missing field
    reads as [JUndefined].  A finite number is given by its value, so that
    [0] and [-0] coincide, as they do for [Map] keys and for truthiness; a
    literal too large for a double, such as [1e400], parses to an infinity.
    Objects and arrays are compared by reference by [Map] and by [===].
    The server looks inside one only where a log line converts it to a
    string, and [stringifies] records whether that conversion returns: it
    throws a [TypeError] for an object with an own [toString] key (coming
    from JSON its value is not callable, and [valueOf] gives no primitive),
    and for an array that holds such a value. *)
Inductive jsval : Type :=
| JUndefined
| JNull
| JBool (b : bool)
| JNum (q : Qc)
| JInfinity (negative : bool)
| JStr (s : string)
| JObject (ref : positive) (stringifies : bool).

(** ToBoolean, as used by [!x], [x && y] and [x || y]. *)
Definition truthy (v : jsval) : bool :=
  match v with
  | JUndefined | JNull => false
  | JBool b => b
  | JNum q => bool_decide (q ≠ 0%Qc)
  | JInfinity _ => true
  | JStr s => bool_decide (s ≠ "")
  | JObject _ _ => true
  end.

(** Whether [ToString], as applied by a template literal, returns. *)
Definition printable (v : jsval) : bool :=
  match v with
  | JObject _ stringifies => stringifies
  | _ => true
  end.

(** [a || b] *)
Definition or_else (a b : jsval) : jsval := if truthy a then a else b.

#[global] Instance jsval_eq_dec : EqDecision jsval.
Proof. solve_decision. Defined.

Definition jsval_code (v : jsval)
    : unit + (unit + (bool + (Qc + (bool + (string + positive * bool))))) :=
  match v with
  | JUndefined => inl ()
  | JNull => inr (inl ())
  | JBool b => inr (inr (inl b))
  | JNum q => inr (inr (inr (inl q)))
  | JInfinity n => inr (inr (inr (inr (inl n))))
  | JStr s => inr (inr (inr (inr (inr (inl s)))))
  | JObject r p => inr (inr (inr (inr (inr (inr (r, p))))))
  end.

Definition jsval_decode
    (c : unit + (unit + (bool + (Qc + (bool + (string + positive * bool)))))) : jsval :=
  match c with
  | inl _ => JUndefined
  | inr (inl _) => JNull
  | inr (inr (inl b)) => JBool b
  | inr (inr (inr (inl q))) => JNum q
  | inr (inr (inr (inr (inl n)))) => JInfinity n
  | inr (inr (inr (inr (inr (inl s))))) => JStr s
  | inr (inr (inr (inr (inr (inr (r, p)))))) => JObject r p
  end.

#[global] Instance jsval_countable : Countable jsval.
Proof.
  apply (inj_countable' jsval_code jsval_decode).
  intros []; reflexivity.
Defined.

(** A JavaScript [Set] of connection handles: no duplicates, iterated in
    insertion order. *)
Definition set_add (x : nat) (s : list nat) : list nat :=
  if decide (x ∈ s) then s else s ++ [x].

Definition set_delete (x : nat) (s : list nat) : list nat :=
  filter (λ y, y ≠ x) s.

End JS.

Import JS.

(** ** Data held by the server *)

(** [readyState] of a socket. *)
Inductive ReadyState : Type := CONNECTING | OPEN | CLOSING | CLOSED.

#[global] Instance ReadyState_eq_dec : EqDecision ReadyState.
Proof. solve_decision. Defined.

(** The value stored in [users]. *)
Record Account : Type := mkAccount {
  publicKey : jsval;
  username : jsval;
  connections : list nat;
  registeredAt : Z
}.

(** [messagePacket]; its [type] field is always ['newMessage']. *)
Record Packet : Type := mkPacket {
  from : jsval;
  encryptedMessage : jsval;
  timestamp : Z;
  id : string
}.

(** The object passed to [JSON.stringify] before [send]. *)
Inductive Frame : Type :=
| FPong
| FError (message : string)
| FRegistered (accountId : jsval) (onlineUsers : nat)
| FPublicKey (accountId pk uname : jsval)
| FNewMessage (p : Packet)
| FMessageSent (messageId : string) (status : string).

(** What a handler asks of the transport. *)
Inductive Action : Type :=
| Send (conn : nat) (f : Frame)
| Close (conn : nat).

(** The fields of an inbound object that the server reads. *)
Record Message : Type := mkMessage {
  m_type : jsval;
  m_accountId : jsval;
  m_publicKey : jsval;
  m_username : jsval;
  m_to : jsval;
  m_from : jsval;
  m_encryptedMessage : jsval
}.

(** Outcome of [JSON.parse(data.toString())]. *)
Inductive Inbound : Type :=
| Unparsable                   (* JSON.parse throws *)
| ParsedNull                   (* the text "null" *)
| ParsedPrimitive              (* a number, string, boolean or array *)
| ParsedObject (m : Message).

(** [users], [messageQueue], [wss.clients], and for each connection the
    [currentAccountId] variable of its closure. *)
Record Server : Type := mkServer {
  users : gmap jsval Account;
  messageQueue : gmap jsval (list Packet);
  clients : list nat;
  currentAccountId : gmap nat jsval
}.

Definition initial : Server := mkServer ∅ ∅ [] ∅.

Definition with_users (u : gmap jsval Account) (st : Server) : Server :=
  mkServer u (messageQueue st) (clients st) (currentAccountId st).

Definition with_messageQueue (q : gmap jsval (list Packet)) (st : Server) : Server :=
  mkServer (users st) q (clients st) (currentAccountId st).

Definition with_clients (c : list nat) (st : Server) : Server :=
  mkServer (users st) (messageQueue st) c (currentAccountId st).

Definition with_currentAccountId (c : gmap nat jsval) (st : Server) : Server :=
  mkServer (users st) (messageQueue st) (clients st) c.

Definition with_connections (c : list nat) (a : Account) : Account :=
  mkAccount (publicKey a) (username a) c (registeredAt a).

(** ** Handlers: state passing with a log of transport actions *)

Definition Handler (A : Type) : Type := Server → A * Server * list Action.

Definition ret {A} (a : A) : Handler A := λ st, (a, st, []).

Definition bind {A B} (h : Handler A) (k : A → Handler B) : Handler B :=
  λ st, let '(a, st1, out1) := h st in
        let '(b, st2, out2) := k a st1 in
        (b, st2, out1 ++ out2).

Definition gets {A} (f : Server → A) : Handler A := λ st, (f st, st, []).

Definition modify (f : Server → Server) : Handler unit := λ st, ((), f st, []).

Definition emit (a : Action) : Handler unit := λ st, ((), st, [a]).

Declare Scope handler_scope.
Delimit Scope handler_scope with handler.
Bind Scope handler_scope with Handler.

Notation "x ← h ; k" := (bind h (λ x, k))
  (at level 20, h at level 100, k at level 200, only parsing) : handler_scope.
Notation "h ;; k" := (bind h (λ _, k))
  (at level 100, k at level 200, only parsing, right associativity) : handler_scope.

Local Open Scope handler_scope.

(** [ws.send(JSON.stringify(frame))] *)
Definition send (ws : nat) (f : Frame) : Handler unit := emit (Send ws f).

(** [xs.forEach(x => body(x))] *)
Fixpoint forEach {A} (xs : list A) (body : A → Handler unit) : Handler unit :=
  match xs with
  | [] => ret ()
  | x :: rest => body x ;; forEach rest body
  end.

(** How a piece of a handler ends: by running to its end, or with a
    [TypeError] that propagates to the nearest [catch]. *)
Inductive Completion : Type := Normal | Thrown.

(** A template literal [`... ${v1} ... ${v2} ...`]: [ToString] of each
    value in turn. *)
Definition template (values : list jsval) : Handler Completion :=
  ret (if forallb printable values then Normal else Thrown).

(** [h; k] where [h] may throw: then [k] is skipped. *)
Definition and_then (h k : Handler Completion) : Handler Completion :=
  c ← h; match c with Normal => k | Thrown => ret Thrown end.

(** [try { body } catch (error) { handler }] *)
Definition try_catch (body : Handler Completion) (handler : Handler unit) : Handler unit :=
  c ← body; match c with Normal => ret () | Thrown => handler end.

(** [h] for a statement that cannot throw. *)
Definition completes (h : Handler unit) : Handler Completion := h;; ret Normal.

Notation "h ;;; k" := (and_then h k)
  (at level 100, k at level 200, only parsing, right associativity) : handler_scope.

(* Unfold the primitives only once they are run on a state. *)
Arguments template _ _ /.
Arguments and_then _ _ _ /.
Arguments try_catch _ _ _ /.
Arguments completes _ _ /.
Arguments ret {_} _ _ /.
Arguments bind {_ _} _ _ _ /.
Arguments gets {_} _ _ /.
Arguments modify _ _ /.
Arguments emit _ _ /.
Arguments send _ _ _ /.

Definition state_of {A} (r : A * Server * list Action) : Server := r.1.2.
Definition sent {A} (r : A * Server * list Action) : list Action := r.2.

(** ** The server's handlers *)

(** [Date.now()] and [crypto.randomBytes(16).toString('hex')] are read from
    the environment: the handlers take their results as [now] and [rnd].
    [readyState] of the sockets is owned by the transport and is passed in
    as [rs].  A [console.log] call is modelled where it can change what the
    handler does: where its template literal converts a field of the frame
    to a string, which may throw. *)

(** [function handleRegister(ws, message)] *)
Definition handleRegister (ws : nat) (message : Message) (now : Z) : Handler Completion :=
  let accountId := m_accountId message in
  let publicKey := m_publicKey message in
  let username := m_username message in
  if negb (truthy accountId) || negb (truthy publicKey) then
    completes (send ws (FError "Missing accountId or publicKey"))
  else
    known ← gets (λ st, bool_decide (is_Some (users st !! accountId)));
    (if negb known then
       modify (λ st, with_users
         (<[accountId := mkAccount publicKey (or_else username (JStr "Anonymous")) [] now]>
            (users st)) st)
     else ret ());;
    (* const user = users.get(accountId); user.connections.add(ws); *)
    modify (λ st, with_users
      (alter (λ user, with_connections (set_add ws (connections user)) user)
         accountId (users st)) st);;
    (* console.log(`User registered: ${accountId} (${username})`) *)
    template [accountId; username];;;
    onlineUsers ← gets (λ st, size (users st));
    send ws (FRegistered accountId onlineUsers);;
    queued ← gets (λ st, messageQueue st !! accountId);
    completes
      match queued with
      | Some queue =>
          forEach queue (λ msg, send ws (FNewMessage msg));;
          modify (λ st, with_messageQueue (delete accountId (messageQueue st)) st)
      | None => ret ()
      end.

(** The body of [recipient.connections.forEach]; the result is the final
    value of the local variable [delivered]. *)
Fixpoint deliver (rs : nat → ReadyState) (messagePacket : Packet)
    (conns : list nat) (delivered : bool) : Handler bool :=
  match conns with
  | [] => ret delivered
  | conn :: rest =>
      if decide (rs conn = OPEN) then
        send conn (FNewMessage messagePacket);;
        deliver rs messagePacket rest true
      else deliver rs messagePacket rest delivered
  end.

(** [recipient && recipient.connections.size > 0] *)
Definition has_connections (recipient : option Account) : bool :=
  match recipient with
  | Some r => bool_decide (0 < length (connections r))%nat
  | None => false
  end.

(** [function handleSendMessage(ws, message)] *)
Definition handleSendMessage (ws : nat) (message : Message) (now : Z) (rnd : string)
    (rs : nat → ReadyState) : Handler Completion :=
  let to := m_to message in
  let encryptedMessage := m_encryptedMessage message in
  let from := m_from message in
  if negb (truthy to) || negb (truthy encryptedMessage) || negb (truthy from) then
    completes (send ws (FError "Invalid message structure"))
  else
    recipient ← gets (λ st, users st !! to);
    let messagePacket := mkPacket from encryptedMessage now rnd in
    if has_connections recipient then
      delivered ← deliver rs messagePacket (from_option connections [] recipient) false;
      if delivered then
        (* console.log(`Message delivered: ${from} -> ${to}`) *)
        template [from; to];;;
        completes (send ws (FMessageSent (id messagePacket) "delivered"))
      else ret Normal
    else
      queued ← gets (λ st, bool_decide (is_Some (messageQueue st !! to)));
      (if negb queued then
         modify (λ st, with_messageQueue (<[to := []]> (messageQueue st)) st)
       else ret ());;
      (* messageQueue.get(to).push(messagePacket) *)
      modify (λ st, with_messageQueue
        (alter (λ queue, queue ++ [messagePacket]) to (messageQueue st)) st);;
      (* console.log(`Message queued: ${from} -> ${to}`) *)
      template [from; to];;;
      completes (send ws (FMessageSent (id messagePacket) "queued")).

(** [function handleGetPublicKey(ws, message)] *)
Definition handleGetPublicKey (ws : nat) (message : Message) : Handler unit :=
  let accountId := m_accountId message in
  user ← gets (λ st, users st !! accountId);
  match user with
  | Some u => send ws (FPublicKey accountId (publicKey u) (username u))
  | None => send ws (FError "User not found")
  end.

(** [wss.on('connection', ...)]: the socket joins [wss.clients] and its
    closure starts with [currentAccountId = null]. *)
Definition on_connection (ws : nat) : Handler unit :=
  modify (λ st, with_clients (set_add ws (clients st))
                  (with_currentAccountId (<[ws := JNull]> (currentAccountId st)) st)).

(** The [try] block of [ws.on('message', ...)]: [JSON.parse] and the
    [switch] on [message.type].  [JSON.parse] may throw, reading [null.type]
    throws, and so may the log lines of the handlers. *)
Definition dispatch (ws : nat) (data : Inbound) (now : Z) (rnd : string)
    (rs : nat → ReadyState) : Handler Completion :=
  match data with
  | Unparsable | ParsedNull => ret Thrown
  | ParsedPrimitive => ret Normal
  | ParsedObject message =>
      if decide (m_type message = JStr "register") then
        handleRegister ws message now;;;
        completes (modify (λ st, with_currentAccountId
          (<[ws := m_accountId message]> (currentAccountId st)) st))
      else if decide (m_type message = JStr "sendMessage") then
        handleSendMessage ws message now rnd rs
      else if decide (m_type message = JStr "getPublicKey") then
        completes (handleGetPublicKey ws message)
      else if decide (m_type message = JStr "ping") then
        completes (send ws FPong)
      else ret Normal
  end.

(** [ws.on('message', ...)]: whatever is thrown inside the [try] block ends
    in the [catch] block, which answers with an error frame. *)
Definition on_message (ws : nat) (data : Inbound) (now : Z) (rnd : string)
    (rs : nat → ReadyState) : Handler unit :=
  try_catch (dispatch ws data now rnd rs)
    (send ws (FError "Invalid message format")).

(** [ws.on('close', ...)]; the transport then drops the socket from
    [wss.clients].  The log line that ends the handler converts to a string
    an id that is a key of [users] and was captured from a [register] that
    returned: a string, number or boolean, or else the very object that
    [handleRegister] converted at its own log line.  It comes after the
    [delete] and sends nothing. *)
Definition on_close (ws : nat) : Handler unit :=
  current ← gets (λ st, default JNull (currentAccountId st !! ws));
  known ← gets (λ st, bool_decide (is_Some (users st !! current)));
  (if truthy current && known then
     modify (λ st, with_users
       (alter (λ user, with_connections (set_delete ws (connections user)) user)
          current (users st)) st)
   else ret ());;
  modify (λ st, with_clients (set_delete ws (clients st)) st).

Definition maxAge : Z := 7 * 24 * 60 * 60 * 1000.

(** The callback of [messageQueue.forEach] in the hourly sweep. *)
Definition sweep_entry (now : Z) (accountId : jsval) (messages : list Packet)
    (queue : gmap jsval (list Packet)) : gmap jsval (list Packet) :=
  let filtered := filter (λ msg, now - timestamp msg < maxAge) messages in
  if decide (length filtered = 0%nat) then delete accountId queue
  else <[accountId := filtered]> queue.

(** The [setInterval] callback.  The callback only deletes or overwrites the
    entry being visited, so [forEach] visits exactly the entries present when
    the sweep starts. *)
Definition cleanup (now : Z) : Handler unit :=
  modify (λ st, with_messageQueue
    (map_fold (sweep_entry now) (messageQueue st) (messageQueue st)) st).

(** [process.on('SIGTERM', ...)], up to [server.close]. *)
Definition on_sigterm : Handler unit :=
  all ← gets clients;
  forEach all (λ client, emit (Close client)).

(** ** Runs of the server *)

Inductive Event : Type :=
| EConnection (ws : nat)
| EMessage (ws : nat) (data : Inbound) (now : Z) (rnd : string) (rs : nat → ReadyState)
| EClose (ws : nat)
| ECleanup (now : Z).

Definition handle (e : Event) : Handler unit :=
  match e with
  | EConnection ws => on_connection ws
  | EMessage ws data now rnd rs => on_message ws data now rnd rs
  | EClose ws => on_close ws
  | ECleanup now => cleanup now
  end.

Definition step (st : Server) (e : Event) : Server := state_of (handle e st).

Definition run (es : list Event) : Server := foldl step initial es.

Inductive reachable : Server → Prop :=
| reachable_initial : reachable initial
| reachable_step st e : reachable st → reachable (step st e).

(** ** Closed forms and sample inputs used by the statements below *)

Implicit Types (ws : nat) (m : Message) (st : Server) (now : Z) (rnd : string).

(** The account directory after an accepted [register]. *)
Definition registered_users ws m now (u : gmap jsval Account) : gmap jsval Account :=
  alter (λ user, with_connections (set_add ws (connections user)) user)
    (m_accountId m)
    (if bool_decide (is_Some (u !! m_accountId m)) then u
     else <[m_accountId m :=
             mkAccount (m_publicKey m) (or_else (m_username m) (JStr "Anonymous")) [] now]> u).

(** The sockets of a connection set that are open, in iteration order. *)
Definition open_connections (rs : nat → ReadyState) (conns : list nat) : list nat :=
  filter (λ conn, rs conn = OPEN) conns.

(** The frame that ends a handler after a log line that mentions [values]:
    the frame [f] of the handler when the line can be printed, else the error
    frame of the [catch] block. *)
Definition reply_after_log (values : list jsval) (f : Frame) : Frame :=
  if forallb printable values then f else FError "Invalid message format".

(** [messageQueue] after one packet was pushed for [to]. *)
Definition enqueued (to : jsval) (p : Packet) (q : gmap jsval (list Packet))
    : gmap jsval (list Packet) :=
  <[to := default [] (q !! to) ++ [p]]> q.

(** Frames as a client sends them; fields left out read as [undefined]. *)
Definition register_frame (accountId pk uname : jsval) : Message :=
  mkMessage (JStr "register") accountId pk uname JUndefined JUndefined JUndefined.

Definition sendMessage_frame (sender to payload : jsval) : Message :=
  mkMessage (JStr "sendMessage") JUndefined JUndefined JUndefined to sender payload.

Definition getPublicKey_frame (accountId : jsval) : Message :=
  mkMessage (JStr "getPublicKey") accountId JUndefined JUndefined JUndefined JUndefined
    JUndefined.

Definition all_open : nat → ReadyState := λ _, OPEN.

(** Socket 2 is between the start of its closing handshake and its
    ['close'] event; every other socket is open. *)
Definition two_closing : nat → ReadyState :=
  λ conn, if decide (conn = 2%nat) then CLOSING else OPEN.

(** bob registered on socket 2; socket 1 has connected and not registered. *)
Definition bob_online : Server :=
  run [EConnection 2;
       EMessage 2 (ParsedObject (register_frame (JStr "bob") (JStr "pkB") JUndefined))
         1000 "00" all_open;
       EConnection 1].

(** bob registered on sockets 2 and 3. *)
Definition bob_twice : Server :=
  run [EConnection 2;
       EMessage 2 (ParsedObject (register_frame (JStr "bob") (JStr "pkB") JUndefined))
         1000 "00" all_open;
       EConnection 3;
       EMessage 3 (ParsedObject (register_frame (JStr "bob") (JStr "pkB") JUndefined))
         1500 "00" all_open;
       EConnection 1].

(** Two messages wait for bob, who has never registered. *)
Definition bob_awaited : Server :=
  run [EConnection 1;
       EMessage 1 (ParsedObject (register_frame (JStr "alice") (JStr "pkA") (JStr "Alice")))
         1000 "00" all_open;
       EMessage 1 (ParsedObject (sendMessage_frame (JStr "alice") (JStr "bob") (JStr "c1")))
         2000 "a1" all_open;
       EMessage 1 (ParsedObject (sendMessage_frame (JStr "alice") (JStr "bob") (JStr "c2")))
         3000 "a2" all_open;
       EConnection 2].


(** The invariant behind [users.get(undefined)]: [register] only ever
    stores an account under a truthy key. *)
Definition keys_truthy (st : Server) : Prop :=
  ∀ k a, users st !! k = Some a → truthy k = true.

(** ** The health probe *)

(** What [res.end] is given: the object passed to [JSON.stringify], or a
    plain text. *)
Inductive HttpBody : Type :=
| HealthReport (status : string) (nusers : nat) (time : Z)
| PlainText (text : string).

(** [res.writeHead(statusCode, headers)] followed by [res.end(body)]. *)
Record HttpResponse : Type := mkHttpResponse {
  statusCode : nat;
  contentType : option string;
  body : HttpBody
}.

(** The callback of [http.createServer]. *)
Definition http_request (url : string) (now : Z) (st : Server) : HttpResponse :=
  if decide (url = "/health") then
    mkHttpResponse 200 (Some "application/json") (HealthReport "ok" (size (users st)) now)
  else
    mkHttpResponse 404 None (PlainText "Not Found").

(** The [users] figure of a health report. *)
Definition reported_users (r : HttpResponse) : option nat :=
  match body r with
  | HealthReport _ n _ => Some n
  | PlainText _ => None
  end.

(** ** Further notions used by the statements below *)

(** The server after the events [es], started in [st]. *)
Definition run_from (st : Server) (es : list Event) : Server := foldl step st es.

(** Two records of one account that differ at most in the connection set. *)
Definition same_identity (a a' : Account) : Prop :=
  publicKey a' = publicKey a ∧ username a' = username a ∧ registeredAt a' = registeredAt a.

(** Every stored queue has a truthy key, is not empty, and holds packets
    whose [from] and [encryptedMessage] passed the check of
    [handleSendMessage]. *)
Definition queue_well_formed (st : Server) : Prop :=
  ∀ k queue, messageQueue st !! k = Some queue →
    truthy k = true ∧ queue ≠ []
    ∧ Forall (λ p, truthy (from p) = true ∧ truthy (encryptedMessage p) = true) queue.

(** No connection set lists a socket twice. *)
Definition connections_NoDup (st : Server) : Prop :=
  ∀ k a, users st !! k = Some a → NoDup (connections a).

(** alice registered on socket 1 and nothing else happened. *)
Definition alice_alone : Server :=
  run [EConnection 1;
       EMessage 1 (ParsedObject (register_frame (JStr "alice") (JStr "pkA") (JStr "Alice")))
         1000 "00" all_open].

(** A [sendMessage] as it reaches the server: the socket, [from],
    [encryptedMessage], the clock, the random id and the socket states. *)
Record Sending : Type := mkSending {
  s_ws : nat;
  s_from : jsval;
  s_payload : jsval;
  s_now : Z;
  s_rnd : string;
  s_rs : nat → ReadyState
}.

(** The event of the sending [s] addressed to [to], and the packet the
    server builds for it. *)
Definition sending_event (to : jsval) (s : Sending) : Event :=
  EMessage (s_ws s) (ParsedObject (sendMessage_frame (s_from s) to (s_payload s)))
    (s_now s) (s_rnd s) (s_rs s).

Definition sending_packet (s : Sending) : Packet :=
  mkPacket (s_from s) (s_payload s) (s_now s) (s_rnd s).

(** * Properties *)

(** ** What the handlers compute, in closed form *)

Section closed_forms.

Lemma forEach_send ws (queue : list Packet) st :
  forEach queue (λ msg, send ws (FNewMessage msg)) st
  = ((), st, map (λ msg, Send ws (FNewMessage msg)) queue).
Proof.
  induction queue as [|msg queue IH]; [done|].
  cbn. rewrite IH. done.
Qed.

Lemma forEach_close (l : list nat) st :
  forEach l (λ client, emit (Close client)) st = ((), st, map Close l).
Proof.
  induction l as [|c l IH]; [done|].
  cbn. rewrite IH. done.
Qed.

Lemma on_sigterm_closes_clients st :
  on_sigterm st = ((), st, map Close (clients st)).
Proof. unfold on_sigterm. cbn. by rewrite forEach_close. Qed.


Lemma reply_after_log_thrown (values : list jsval) (f : Frame) :
  forallb printable values = false →
  reply_after_log values f = FError "Invalid message format".
Proof. intros H. unfold reply_after_log. by rewrite H. Qed.

Lemma handleRegister_rejected ws m now st :
  truthy (m_accountId m) = false ∨ truthy (m_publicKey m) = false →
  handleRegister ws m now st
  = (Normal, st, [Send ws (FError "Missing accountId or publicKey")]).
Proof.
  intros H. unfold handleRegister.
  destruct H as [-> | ->]; [|rewrite orb_true_r]; done.
Qed.

(** Past the validation, the account is created or extended first; the log
    line decides whether the acknowledgement and the flush follow. *)
Lemma handleRegister_accepted ws m now st :
  truthy (m_accountId m) = true → truthy (m_publicKey m) = true →
  handleRegister ws m now st
  = if forallb printable [m_accountId m; m_username m] then
      (Normal,
       with_messageQueue (delete (m_accountId m) (messageQueue st))
         (with_users (registered_users ws m now (users st)) st),
       Send ws (FRegistered (m_accountId m) (size (registered_users ws m now (users st))))
         :: map (λ msg, Send ws (FNewMessage msg))
              (default [] (messageQueue st !! m_accountId m)))
    else (Thrown, with_users (registered_users ws m now (users st)) st, []).
Proof.
  intros Hid Hpk. unfold handleRegister, registered_users.
  rewrite Hid, Hpk. cbn [negb orb].
  destruct st as [u q c cur]. cbn.
  destruct (bool_decide (is_Some (u !! m_accountId m))); cbn.
  all: destruct (printable (m_accountId m) && (printable (m_username m) && true)); cbn;
    [|done].
  all: destruct (q !! m_accountId m) as [queue|] eqn:Hq; cbn.
  all: rewrite ?forEach_send; cbn; rewrite ?app_nil_r; try done.
  all: rewrite delete_id by done; done.
Qed.

Lemma deliver_spec rs (p : Packet) (conns : list nat) (delivered : bool) st :
  deliver rs p conns delivered st
  = (delivered || bool_decide (open_connections rs conns ≠ []), st,
     map (λ conn, Send conn (FNewMessage p)) (open_connections rs conns)).
Proof.
  revert delivered. unfold open_connections.
  induction conns as [|conn rest IH]; intros delivered.
  - cbn. by rewrite orb_false_r.
  - cbn [deliver]. rewrite filter_cons. destruct (decide (rs conn = OPEN)).
    + cbn. rewrite IH. cbn. by rewrite orb_true_r.
    + apply IH.
Qed.

Lemma handleSendMessage_rejected ws m now rnd rs st :
  truthy (m_to m) = false ∨ truthy (m_encryptedMessage m) = false
    ∨ truthy (m_from m) = false →
  handleSendMessage ws m now rnd rs st
  = (Normal, st, [Send ws (FError "Invalid message structure")]).
Proof.
  intros H. unfold handleSendMessage.
  destruct H as [-> | [-> | ->]]; rewrite ?orb_true_r; done.
Qed.

Lemma enqueue_is_insert (to : jsval) (p : Packet) (q : gmap jsval (list Packet)) :
  alter (λ queue, queue ++ [p]) to
    (if negb (bool_decide (is_Some (q !! to))) then <[to := []]> q else q)
  = enqueued to p q.
Proof.
  unfold enqueued. apply map_eq. intros k.
  destruct (q !! to) as [queue|] eqn:Hq.
  - rewrite bool_decide_eq_true_2 by done. cbn [negb default].
    destruct (decide (to = k)) as [<-|].
    + by rewrite lookup_alter_eq, lookup_insert_eq, Hq.
    + by rewrite lookup_alter_ne, lookup_insert_ne.
  - rewrite bool_decide_eq_false_2 by (by intros [? ?]). cbn [negb default].
    destruct (decide (to = k)) as [<-|].
    + by rewrite lookup_alter_eq, !lookup_insert_eq.
    + by rewrite lookup_alter_ne, !lookup_insert_ne.
Qed.

End closed_forms.

(** ** The message handler, case by case *)

Section dispatch.

Lemma truthy_cases (v : jsval) : truthy v = true ∨ truthy v = false.
Proof. destruct (truthy v); auto. Qed.

Lemma on_message_register_rejected ws m now rnd rs st :
  m_type m = JStr "register" →
  truthy (m_accountId m) = false ∨ truthy (m_publicKey m) = false →
  on_message ws (ParsedObject m) now rnd rs st
  = ((),
     with_currentAccountId (<[ws := m_accountId m]> (currentAccountId st)) st,
     [Send ws (FError "Missing accountId or publicKey")]).
Proof.
  intros Hty H. unfold on_message, dispatch. rewrite Hty, decide_True by done.
  cbn. by rewrite handleRegister_rejected.
Qed.

Lemma on_message_register_accepted ws m now rnd rs st :
  m_type m = JStr "register" →
  truthy (m_accountId m) = true → truthy (m_publicKey m) = true →
  printable (m_accountId m) = true → printable (m_username m) = true →
  on_message ws (ParsedObject m) now rnd rs st
  = ((),
     mkServer (registered_users ws m now (users st))
       (delete (m_accountId m) (messageQueue st))
       (clients st)
       (<[ws := m_accountId m]> (currentAccountId st)),
     Send ws (FRegistered (m_accountId m) (size (registered_users ws m now (users st))))
       :: map (λ msg, Send ws (FNewMessage msg))
            (default [] (messageQueue st !! m_accountId m))).
Proof.
  intros Hty Hid Hpk Hpid Hpun. unfold on_message, dispatch.
  rewrite Hty, decide_True by done. cbn.
  rewrite handleRegister_accepted by done. cbn. rewrite Hpid, Hpun. cbn.
  by rewrite !app_nil_r.
Qed.

(** The log line of [handleRegister] throws: the account is there, the
    socket is in its set, and nothing else was done. *)
Lemma on_message_register_thrown ws m now rnd rs st :
  m_type m = JStr "register" →
  truthy (m_accountId m) = true → truthy (m_publicKey m) = true →
  forallb printable [m_accountId m; m_username m] = false →
  on_message ws (ParsedObject m) now rnd rs st
  = ((), with_users (registered_users ws m now (users st)) st,
     [Send ws (FError "Invalid message format")]).
Proof.
  intros Hty Hid Hpk Hlog. unfold on_message, dispatch.
  rewrite Hty, decide_True by done. cbn.
  rewrite handleRegister_accepted by done. by rewrite Hlog.
Qed.

Lemma on_message_register_users ws m now rnd rs st :
  m_type m = JStr "register" →
  truthy (m_accountId m) = true → truthy (m_publicKey m) = true →
  users (state_of (on_message ws (ParsedObject m) now rnd rs st))
  = registered_users ws m now (users st).
Proof.
  intros Hty Hid Hpk.
  destruct (forallb printable [m_accountId m; m_username m]) eqn:Hlog.
  - cbn in Hlog. apply andb_true_iff in Hlog as [Hpid Hpun].
    rewrite andb_true_r in Hpun. by rewrite on_message_register_accepted.
  - by rewrite on_message_register_thrown.
Qed.

Lemma on_message_sendMessage_rejected ws m now rnd rs st :
  m_type m = JStr "sendMessage" →
  truthy (m_to m) = false ∨ truthy (m_encryptedMessage m) = false
    ∨ truthy (m_from m) = false →
  on_message ws (ParsedObject m) now rnd rs st
  = ((), st, [Send ws (FError "Invalid message structure")]).
Proof.
  intros Hty H. unfold on_message, dispatch.
  rewrite Hty, decide_False, decide_True by done. cbn.
  by rewrite handleSendMessage_rejected.
Qed.

(** Past the validation: fan-out or queue first, then the log line, then
    the receipt, or the error frame of the [catch] block in its place. *)
Lemma on_message_sendMessage_accepted ws m now rnd rs st :
  m_type m = JStr "sendMessage" →
  truthy (m_to m) = true → truthy (m_encryptedMessage m) = true →
  truthy (m_from m) = true →
  let p := mkPacket (m_from m) (m_encryptedMessage m) now rnd in
  let recipient := users st !! m_to m in
  let opened := open_connections rs (from_option connections [] recipient) in
  on_message ws (ParsedObject m) now rnd rs st
  = if has_connections recipient then
      ((), st,
       map (λ conn, Send conn (FNewMessage p)) opened
         ++ (if bool_decide (opened ≠ [])
             then [Send ws (reply_after_log [m_from m; m_to m]
                              (FMessageSent rnd "delivered"))]
             else []))
    else
      ((), with_messageQueue (enqueued (m_to m) p (messageQueue st)) st,
       [Send ws (reply_after_log [m_from m; m_to m] (FMessageSent rnd "queued"))]).
Proof.
  intros Hty Hto Henc Hfrom. unfold on_message, dispatch.
  rewrite Hty, decide_False, decide_True by done.
  unfold handleSendMessage. rewrite Hto, Henc, Hfrom. cbn [negb orb].
  destruct st as [u q c cur]. cbn.
  destruct (has_connections (u !! m_to m)).
  - cbn. rewrite deliver_spec. cbn. unfold reply_after_log. cbn.
    destruct (bool_decide _); cbn; [|by rewrite ?app_nil_r].
    destruct (printable (m_from m) && (printable (m_to m) && true)); cbn;
      by rewrite ?app_nil_r.
  - rewrite <-enqueue_is_insert. unfold reply_after_log, with_messageQueue. cbn.
    destruct (bool_decide (is_Some (q !! m_to m))); cbn.
    all: destruct (printable (m_from m) && (printable (m_to m) && true)); by cbn.
Qed.

Lemma on_message_getPublicKey ws m now rnd rs st :
  m_type m = JStr "getPublicKey" →
  on_message ws (ParsedObject m) now rnd rs st = handleGetPublicKey ws m st.
Proof.
  intros H. unfold on_message, dispatch. rewrite H.
  rewrite !decide_False by done. rewrite decide_True by done.
  unfold handleGetPublicKey. cbn. by destruct (users st !! m_accountId m).
Qed.

Lemma on_message_other ws m now rnd rs st :
  m_type m ≠ JStr "register" → m_type m ≠ JStr "sendMessage" →
  m_type m ≠ JStr "getPublicKey" →
  on_message ws (ParsedObject m) now rnd rs st
  = ((), st, if decide (m_type m = JStr "ping") then [Send ws FPong] else []).
Proof.
  intros Hreg Hsend Hget. unfold on_message, dispatch.
  rewrite !decide_False by done. by case_decide.
Qed.

(** What one inbound frame can do to the state. *)
Lemma on_message_state ws data now rnd rs st :
  let st' := state_of (on_message ws data now rnd rs st) in
  st' = st
  ∨ ∃ m, data = ParsedObject m
      ∧ ((m_type m = JStr "register"
          ∧ st' = with_currentAccountId (<[ws := m_accountId m]> (currentAccountId st)) st)
         ∨ (m_type m = JStr "register"
            ∧ truthy (m_accountId m) = true ∧ truthy (m_publicKey m) = true
            ∧ (st' = with_users (registered_users ws m now (users st)) st
               ∨ st' = mkServer (registered_users ws m now (users st))
                         (delete (m_accountId m) (messageQueue st)) (clients st)
                         (<[ws := m_accountId m]> (currentAccountId st))))
         ∨ (m_type m = JStr "sendMessage"
            ∧ truthy (m_to m) = true ∧ truthy (m_encryptedMessage m) = true
            ∧ truthy (m_from m) = true
            ∧ st' = with_messageQueue
                      (enqueued (m_to m)
                         (mkPacket (m_from m) (m_encryptedMessage m) now rnd)
                         (messageQueue st)) st)).
Proof.
  destruct data as [| | |m]; [by left..|]. cbn zeta.
  destruct (decide (m_type m = JStr "register")) as [Hreg|Hreg].
  { destruct (truthy_cases (m_accountId m)) as [Hid|Hid];
      [destruct (truthy_cases (m_publicKey m)) as [Hpk|Hpk]|].
    - right. exists m. split; [done|]. right. left. split_and!; try done.
      destruct (forallb printable [m_accountId m; m_username m]) eqn:Hlog.
      + cbn in Hlog. apply andb_true_iff in Hlog as [Hpid Hpun].
        rewrite andb_true_r in Hpun. right. by rewrite on_message_register_accepted.
      + left. by rewrite on_message_register_thrown.
    - right. exists m. split; [done|]. left. split; [done|].
      by rewrite on_message_register_rejected by auto.
    - right. exists m. split; [done|]. left. split; [done|].
      by rewrite on_message_register_rejected by auto. }
  destruct (decide (m_type m = JStr "sendMessage")) as [Hsend|Hsend].
  { destruct (truthy_cases (m_to m)) as [Hto|Hto];
      [destruct (truthy_cases (m_encryptedMessage m)) as [Henc|Henc];
       [destruct (truthy_cases (m_from m)) as [Hfrom|Hfrom]|]|].
    2-4: left; by rewrite on_message_sendMessage_rejected by auto.
    rewrite on_message_sendMessage_accepted by done.
    destruct (has_connections _); [by left|].
    right. exists m. split; [done|]. do 2 right. by split_and!. }
  left. destruct (decide (m_type m = JStr "getPublicKey")) as [Hget|Hget].
  - rewrite on_message_getPublicKey by done. unfold handleGetPublicKey. cbn.
    by destruct (users st !! m_accountId m).
  - by rewrite on_message_other.
Qed.

End dispatch.

(** ** JavaScript [Set] operations *)

Section js_set.

Lemma elem_of_set_add (x y : nat) (s : list nat) : y ∈ set_add x s ↔ y = x ∨ y ∈ s.
Proof.
  unfold set_add. case_decide.
  - split; [auto|]. intros [->|]; done.
  - rewrite elem_of_app, list_elem_of_singleton. tauto.
Qed.

Lemma set_add_NoDup (x : nat) (s : list nat) : NoDup s → NoDup (set_add x s).
Proof.
  intros Hs. unfold set_add. case_decide; [done|].
  apply NoDup_app. split_and!; [done| |apply NoDup_singleton].
  intros y Hy ->%list_elem_of_singleton. done.
Qed.

Lemma elem_of_set_delete (x y : nat) (s : list nat) : y ∈ set_delete x s ↔ y ≠ x ∧ y ∈ s.
Proof. unfold set_delete. by rewrite list_elem_of_filter. Qed.

Lemma set_delete_absent (x : nat) (s : list nat) : x ∉ s → set_delete x s = s.
Proof.
  unfold set_delete. induction s as [|y s IH]; [done|].
  intros [Hne Hs]%not_elem_of_cons. rewrite filter_cons_True by done.
  by rewrite IH.
Qed.

End js_set.

(** ** The hourly sweep *)

Section sweep.

(** What the sweep leaves of one entry. *)
Lemma sweep_foldr now (l : list (jsval * list Packet)) (base : gmap jsval (list Packet))
    (k : jsval) :
  foldr (uncurry (sweep_entry now)) base l !! k
  = match (list_to_map l : gmap jsval (list Packet)) !! k with
    | Some messages =>
        let kept := filter (λ msg, now - timestamp msg < maxAge) messages in
        if decide (kept = []) then None else Some kept
    | None => base !! k
    end.
Proof.
  induction l as [|[k' messages] l IH]; [done|].
  cbn [foldr list_to_map uncurry fst snd]. unfold sweep_entry at 1. cbn zeta.
  destruct (decide (k' = k)) as [->|Hne].
  - rewrite lookup_insert_eq.
    case_decide as Hlen.
    + apply length_zero_iff_nil in Hlen. rewrite Hlen.
      rewrite lookup_delete_eq. by rewrite decide_True.
    + rewrite lookup_insert_eq. rewrite decide_False; [done|].
      intros Hnil. by rewrite Hnil in Hlen.
  - rewrite (lookup_insert_ne (list_to_map l)) by done.
    case_decide.
    + by rewrite lookup_delete_ne.
    + by rewrite lookup_insert_ne.
Qed.

Lemma sweep_lookup now (q : gmap jsval (list Packet)) (k : jsval) :
  map_fold (sweep_entry now) q q !! k
  = match q !! k with
    | Some messages =>
        let kept := filter (λ msg, now - timestamp msg < maxAge) messages in
        if decide (kept = []) then None else Some kept
    | None => None
    end.
Proof.
  rewrite map_fold_foldr, sweep_foldr, list_to_map_to_list.
  by destruct (q !! k).
Qed.

End sweep.

(** ** Accounts are only ever stored under truthy keys *)

Section invariant.

Lemma registered_users_lookup ws m now (u : gmap jsval Account) (k : jsval) :
  k ≠ m_accountId m → registered_users ws m now u !! k = u !! k.
Proof.
  intros Hne. unfold registered_users. rewrite lookup_alter_ne by done.
  case_bool_decide; [done|]. by rewrite lookup_insert_ne.
Qed.

Lemma step_keeps_keys_truthy st e : keys_truthy st → keys_truthy (step st e).
Proof.
  intros Hinv k a. unfold step.
  destruct e as [ws|ws data now rnd rs|ws|now]; cbn [handle].
  - cbn. apply Hinv.
  - pose proof (on_message_state ws data now rnd rs st) as Hst. cbn zeta in Hst.
    destruct Hst as [->|(m & _ & [[_ ->]|[(_ & Hid & _ & [->| ->])|(_ & _ & _ & _ & ->)]])];
      cbn [users with_users with_currentAccountId with_messageQueue]; try apply Hinv.
    all: destruct (decide (k = m_accountId m)) as [->|Hne]; [done|].
    all: rewrite registered_users_lookup by done; apply Hinv.
  - unfold on_close. cbn.
    destruct (truthy _ && bool_decide _); cbn; [|apply Hinv].
    rewrite lookup_alter. case_decide; [|apply Hinv].
    subst k. intros [a' [Ha' _]]%fmap_Some. by eapply Hinv.
  - cbn. apply Hinv.
Qed.

Lemma reachable_keys_truthy st : reachable st → keys_truthy st.
Proof.
  induction 1 as [|st e _ IH].
  - intros k a. cbn. by rewrite lookup_empty.
  - by apply step_keeps_keys_truthy.
Qed.

Lemma reachable_run (es : list Event) : reachable (run es).
Proof.
  unfold run. induction es as [|e es IH] using rev_ind.
  - constructor.
  - rewrite foldl_app. cbn. by constructor.
Qed.

Lemma undefined_is_no_account st : reachable st → users st !! JUndefined = None.
Proof.
  intros Hst. destruct (users st !! JUndefined) as [a|] eqn:Hu; [|done].
  by apply reachable_keys_truthy in Hu.
Qed.

End invariant.

(** * The claims *)

(** ** Routing of [sendMessage] *)

(** X5: A recipient that is unknown, or whose connection set is empty, gets
    the packet queued.  The sender is then told so, unless the log line that
    follows the push cannot convert [from] or [to] to a string: then the
    packet stays queued and the sender gets the error frame of the [catch]
    block instead of the receipt. *)
Lemma send_without_connections_is_queued ws m now rnd rs st :
  m_type m = JStr "sendMessage" →
  truthy (m_to m) = true → truthy (m_encryptedMessage m) = true →
  truthy (m_from m) = true →
  has_connections (users st !! m_to m) = false →
  let p := mkPacket (m_from m) (m_encryptedMessage m) now rnd in
  let r := on_message ws (ParsedObject m) now rnd rs st in
  sent r = [Send ws (if printable (m_from m) && printable (m_to m)
                     then FMessageSent (id p) "queued"
                     else FError "Invalid message format")]
  ∧ messageQueue (state_of r) !! m_to m
    = Some (default [] (messageQueue st !! m_to m) ++ [p])
  ∧ (∀ k, k ≠ m_to m → messageQueue (state_of r) !! k = messageQueue st !! k)
  ∧ users (state_of r) = users st.
Proof.
  intros Hty Hto Henc Hfrom Hoff p r. subst r.
  rewrite on_message_sendMessage_accepted by done.
  rewrite Hoff. cbn. unfold enqueued, reply_after_log. cbn.
  rewrite andb_true_r. split_and!; [done| |  |done].
  - by rewrite lookup_insert_eq.
  - intros k Hk. by rewrite lookup_insert_ne.
Qed.

(** X6: A recipient whose connection set is not empty but holds no open socket
    gets nothing, the sender gets nothing, and nothing is queued. *)
Lemma send_with_no_open_connection_is_dropped ws m now rnd rs st recipient :
  m_type m = JStr "sendMessage" →
  truthy (m_to m) = true → truthy (m_encryptedMessage m) = true →
  truthy (m_from m) = true →
  users st !! m_to m = Some recipient →
  connections recipient ≠ [] →
  open_connections rs (connections recipient) = [] →
  on_message ws (ParsedObject m) now rnd rs st = ((), st, []).
Proof.
  intros Hty Hto Henc Hfrom Hrec Hconns Hopen.
  rewrite on_message_sendMessage_accepted by done.
  rewrite Hrec. cbn [from_option has_connections]. rewrite Hopen.
  rewrite bool_decide_eq_true_2; [done|].
  destruct (connections recipient); [done|]. cbn. lia.
Qed.

(** C1 (the code departs from the claim).  The claim: a [sendMessage] with
    [from], [to] and [encryptedMessage] present whose recipient has zero open
    connections appends one packet to the recipient's offline queue and
    answers [messageSent] with status ['queued'].  Here bob's only socket is
    still in his connection set but is no longer open: the server sends
    nothing to anyone and queues nothing. *)
Lemma send_to_closing_recipient_is_dropped :
  let m := sendMessage_frame (JStr "alice") (JStr "bob") (JStr "ciphertext") in
  let r := on_message 1 (ParsedObject m) 2000 "a1" two_closing bob_online in
  truthy (m_from m) = true ∧ truthy (m_to m) = true ∧ truthy (m_encryptedMessage m) = true
  ∧ users bob_online !! m_to m
    = Some (mkAccount (JStr "pkB") (JStr "Anonymous") [2%nat] 1000)
  ∧ open_connections two_closing [2%nat] = []
  ∧ sent r = []
  ∧ messageQueue (state_of r) !! m_to m = None.
Proof. vm_compute. by split_and!. Qed.




(** ** Registration *)

(** C3: a [register] for an id that already has an Account leaves the stored
    [publicKey], [username] and [registeredAt] as they are, whatever key or
    username the frame carries; the Account changes only in that the
    registering socket joins its connection set (when the frame lacks a
    [publicKey] the register is refused and the set too stays as it is); no
    other Account is touched. *)
Theorem register_existing_keeps_identity ws m now rnd rs st a :
  m_type m = JStr "register" →
  users st !! m_accountId m = Some a →
  let r := on_message ws (ParsedObject m) now rnd rs st in
  let accepted := truthy (m_accountId m) && truthy (m_publicKey m) in
  ∃ a', users (state_of r) !! m_accountId m = Some a'
    ∧ publicKey a' = publicKey a
    ∧ username a' = username a
    ∧ registeredAt a' = registeredAt a
    ∧ connections a' = (if accepted then set_add ws (connections a) else connections a)
    ∧ (accepted = true → ws ∈ connections a')
    ∧ (∀ k, k ≠ m_accountId m → users (state_of r) !! k = users st !! k).
Proof.
  intros Hty Hu r accepted. subst r accepted.
  destruct (truthy_cases (m_accountId m)) as [Hid|Hid];
    [destruct (truthy_cases (m_publicKey m)) as [Hpk|Hpk]|].
  - rewrite on_message_register_users by done. rewrite Hid, Hpk. cbn.
    exists (with_connections (set_add ws (connections a)) a).
    split_and!; try done.
    + unfold registered_users. rewrite lookup_alter_eq.
      rewrite bool_decide_eq_true_2 by (by rewrite Hu). by rewrite Hu.
    + intros _. cbn. apply elem_of_set_add. by left.
    + intros k Hk. by apply registered_users_lookup.
  - rewrite on_message_register_rejected by auto. rewrite Hpk, andb_false_r. cbn.
    by exists a.
  - rewrite on_message_register_rejected by auto. rewrite Hid. cbn.
    by exists a.
Qed.

Lemma register_existing_keeps_identity_witness :
  let alice := mkAccount (JStr "pkA") (JStr "Alice") [1%nat] 1000 in
  let m := register_frame (JStr "alice") (JStr "pkEve") (JStr "Eve") in
  let r := on_message 2 (ParsedObject m) 9000 "00" all_open bob_awaited in
  ∃ a', users (state_of r) !! JStr "alice" = Some a'
    ∧ publicKey a' = JStr "pkA"
    ∧ username a' = JStr "Alice"
    ∧ registeredAt a' = 1000
    ∧ connections a' = [1%nat; 2%nat]
    ∧ (true = true → 2%nat ∈ connections a')
    ∧ (∀ k, k ≠ JStr "alice" → users (state_of r) !! k = users bob_awaited !! k).
Proof.
  apply (register_existing_keeps_identity 2
           (register_frame (JStr "alice") (JStr "pkEve") (JStr "Eve"))
           9000 "00" all_open bob_awaited
           (mkAccount (JStr "pkA") (JStr "Alice") [1%nat] 1000)).
  - reflexivity.
  - vm_compute. reflexivity.
Defined.

(** C4: a [register] whose [accountId] or [publicKey] is missing, and a
    [sendMessage] whose [to], [from] or [encryptedMessage] is missing, is
    answered with exactly one error frame on the originating connection, and
    neither the account directory nor the offline queue changes.  The
    server's test is falsiness, so the same holds for a field that is
    present but [null], [false], [0] or the empty string. *)
Theorem missing_field_is_rejected ws m now rnd rs st :
  (m_type m = JStr "register"
   ∧ (truthy (m_accountId m) = false ∨ truthy (m_publicKey m) = false))
  ∨ (m_type m = JStr "sendMessage"
     ∧ (truthy (m_to m) = false ∨ truthy (m_from m) = false
        ∨ truthy (m_encryptedMessage m) = false)) →
  let r := on_message ws (ParsedObject m) now rnd rs st in
  sent r = [Send ws (FError (if decide (m_type m = JStr "register")
                             then "Missing accountId or publicKey"
                             else "Invalid message structure"))]
  ∧ users (state_of r) = users st
  ∧ messageQueue (state_of r) = messageQueue st.
Proof.
  intros [[Hty H]|[Hty H]] r; subst r.
  - rewrite on_message_register_rejected by done. rewrite Hty. cbn.
    by rewrite decide_True.
  - rewrite on_message_sendMessage_rejected by tauto. rewrite Hty.
    by rewrite decide_False.
Qed.

Lemma missing_field_is_rejected_witness :
  let m := register_frame (JStr "carol") JUndefined (JStr "Carol") in
  let r := on_message 2 (ParsedObject m) 9000 "00" all_open bob_awaited in
  sent r = [Send 2 (FError "Missing accountId or publicKey")]
  ∧ users (state_of r) = users bob_awaited
  ∧ messageQueue (state_of r) = messageQueue bob_awaited.
Proof.
  apply (missing_field_is_rejected 2
           (register_frame (JStr "carol") JUndefined (JStr "Carol"))
           9000 "00" all_open bob_awaited).
  left. split; [reflexivity|]. right. reflexivity.
Defined.



(** The [registered] frame is sent exactly for the register frames that pass
    the validation and the log line. *)
Lemma register_acknowledged_iff ws m now rnd rs st :
  m_type m = JStr "register" →
  (∃ n, Send ws (FRegistered (m_accountId m) n)
          ∈ sent (on_message ws (ParsedObject m) now rnd rs st))
  ↔ truthy (m_accountId m) = true ∧ truthy (m_publicKey m) = true
    ∧ printable (m_accountId m) = true ∧ printable (m_username m) = true.
Proof.
  intros Hty. split.
  - intros [n Hin]. revert Hin.
    destruct (truthy_cases (m_accountId m)) as [Hid|Hid];
      [destruct (truthy_cases (m_publicKey m)) as [Hpk|Hpk]|].
    + destruct (forallb printable [m_accountId m; m_username m]) eqn:Hlog.
      * cbn in Hlog. apply andb_true_iff in Hlog as [Hpid Hpun].
        rewrite andb_true_r in Hpun. done.
      * rewrite on_message_register_thrown by done.
        intros Hin%list_elem_of_singleton. discriminate.
    + rewrite on_message_register_rejected by auto.
      intros Hin%list_elem_of_singleton. discriminate.
    + rewrite on_message_register_rejected by auto.
      intros Hin%list_elem_of_singleton. discriminate.
  - intros (Hid & Hpk & Hpid & Hpun).
    rewrite on_message_register_accepted by done.
    eexists. unfold sent. cbn [snd]. by left.
Qed.

(** A [register] whose [username] is an object with an own [toString] key:
    the account is created and the socket added, then the log line throws;
    the socket gets the error frame only, bob's queue stays, and the
    [currentAccountId] of the socket is still [null]. *)
Example register_log_line_throws :
  let m := register_frame (JStr "bob") (JStr "pkB") (JObject 7 false) in
  let r := on_message 2 (ParsedObject m) 9000 "00" all_open bob_awaited in
  sent r = [Send 2 (FError "Invalid message format")]
  ∧ connections <$> users (state_of r) !! JStr "bob" = Some [2%nat]
  ∧ length <$> messageQueue (state_of r) !! JStr "bob" = Some 2%nat
  ∧ currentAccountId (state_of r) !! 2%nat = Some JNull.
Proof. vm_compute. by split_and!. Qed.

(** A [sendMessage] whose [from] is such an object: the packet reaches the
    open sockets of the recipient, or the queue, and then the log line
    throws; the sender gets the error frame in place of the receipt. *)
Example send_log_line_throws :
  let m := sendMessage_frame (JObject 7 false) (JStr "bob") (JStr "c1") in
  let p := mkPacket (JObject 7 false) (JStr "c1") 2000 "a1" in
  sent (on_message 1 (ParsedObject m) 2000 "a1" all_open bob_twice)
  = [Send 2 (FNewMessage p); Send 3 (FNewMessage p);
     Send 1 (FError "Invalid message format")]
  ∧ sent (on_message 1 (ParsedObject m) 2000 "a1" all_open alice_alone)
    = [Send 1 (FError "Invalid message format")]
  ∧ messageQueue (state_of (on_message 1 (ParsedObject m) 2000 "a1" all_open alice_alone))
      !! JStr "bob" = Some [p].
Proof. vm_compute. by split_and!. Qed.


(** ** The hourly sweep *)

(** C6: a sweep at time [now] replaces the queue of every account by its
    messages with [now - timestamp < 7 days] (in milliseconds), in their
    original order, and removes the account's key when none is left, so
    that no key is mapped to an empty sequence afterwards. *)
Theorem cleanup_retains_recent now st (accountId : jsval) :
  let after := messageQueue (state_of (cleanup now st)) in
  after !! accountId
  = match messageQueue st !! accountId with
    | Some messages =>
        let kept := filter (λ msg, now - timestamp msg < 604800000) messages in
        if decide (kept = []) then None else Some kept
    | None => None
    end
  ∧ after !! accountId ≠ Some [].
Proof.
  cbn. rewrite sweep_lookup. change maxAge with 604800000. split; [done|].
  destruct (messageQueue st !! accountId) as [messages|]; [|done].
  cbn zeta. case_decide; congruence.
Qed.

(** Messages aged 0, 6 and 8 days: the first two stay.  A queue whose only
    message is 8 days old disappears with its key. *)
Example cleanup_ages :
  let day := 86400000 in
  let now := 10 * day in
  let p age := mkPacket (JStr "alice") (JStr "c") (now - age * day) "a0" in
  let st := mkServer ∅ {[ JStr "bob" := [p 0; p 6; p 8]; JStr "carol" := [p 8] ]} [] ∅ in
  let after := messageQueue (state_of (cleanup now st)) in
  after !! JStr "bob" = Some [p 0; p 6] ∧ after !! JStr "carol" = None.
Proof. vm_compute. split; reflexivity. Qed.

(** C7: a sweep leaves the account directory exactly as it was: no Account
    is created, deleted or modified, and so no connection set changes; it
    sends nothing and closes nothing. *)
Theorem cleanup_keeps_accounts now st :
  let r := cleanup now st in
  users (state_of r) = users st
  ∧ clients (state_of r) = clients st
  ∧ currentAccountId (state_of r) = currentAccountId st
  ∧ sent r = [].
Proof. done. Qed.

(** ** Closing a connection *)

(** X16: Closing never deletes an Account, and changes at most the connection
    set of the account named by the closure's [currentAccountId], from which
    it removes the closing socket. *)
Lemma on_close_accounts ws st (k : jsval) :
  let r := on_close ws st in
  let current := default JNull (currentAccountId st !! ws) in
  users (state_of r) !! k
  = if decide (k = current ∧ truthy current = true)
    then (λ user, with_connections (set_delete ws (connections user)) user) <$> users st !! k
    else users st !! k.
Proof.
  unfold on_close. cbn.
  destruct (truthy _) eqn:Htr; cbn.
  - case_bool_decide as Hk; cbn.
    + destruct (decide (k = default JNull (currentAccountId st !! ws))) as [->|Hne].
      * rewrite lookup_alter_eq. by rewrite decide_True.
      * rewrite lookup_alter_ne by done. rewrite decide_False; [done|]. by intros [? _].
    + case_decide as Hd; [|done]. destruct Hd as [-> _].
      apply eq_None_not_Some in Hk. by rewrite Hk.
  - rewrite decide_False; [done|]. intros [_ ?]; congruence.
Qed.

(** C8 (the code departs from the claim).  The claim: on close the server
    takes the account id captured at the most recent successful [register]
    on that connection and removes the socket from that account's connection
    set.  Socket 1 registers alice, then sends a [register] for bob without
    a [publicKey], which is refused, and closes: [currentAccountId] was
    overwritten by the refused frame, and socket 1 stays in alice's set. *)
Lemma close_after_refused_register_leaves_handle :
  let events :=
    [EConnection 1;
     EMessage 1 (ParsedObject (register_frame (JStr "alice") (JStr "pkA") JUndefined))
       1000 "00" all_open;
     EMessage 1 (ParsedObject (register_frame (JStr "bob") JUndefined JUndefined))
       2000 "00" all_open] in
  sent (handle (EMessage 1
                  (ParsedObject (register_frame (JStr "bob") JUndefined JUndefined))
                  2000 "00" all_open) (run (take 2 events)))
  = [Send 1 (FError "Missing accountId or publicKey")]
  ∧ currentAccountId (run (take 2 events)) !! 1%nat = Some (JStr "alice")
  ∧ currentAccountId (run events) !! 1%nat = Some (JStr "bob")
  ∧ connections <$> users (run (events ++ [EClose 1])) !! JStr "alice" = Some [1%nat]
  ∧ connections <$> users (run (take 2 events ++ [EClose 1])) !! JStr "alice" = Some [].
Proof. vm_compute. by split_and!. Qed.

(** ** Frames that are not JSON *)

(** C9 as written fails: a frame that is valid JSON but no record, such as
    the number [42], a JSON string, [false] or an array, cannot be parsed
    into a structured message either, and it is not answered at all. *)
Lemma scalar_frame_gets_no_error_frame :
  let r := on_message 1 ParsedPrimitive 2000 "a1" all_open alice_alone in
  sent r = []
  ∧ ¬ (∃ text, sent r = [Send 1 (FError text)])
  ∧ state_of r = alice_alone.
Proof.
  cbn. split_and!; [done| |done]. intros [text Htext]. discriminate.
Qed.

(** C9, amended: a frame on which [JSON.parse] throws, and the JSON text
    [null], is answered with exactly one error frame on the originating
    connection; no field of the server state changes, and the server closes
    no connection. *)
Theorem malformed_frame_is_answered ws data now rnd rs st :
  data = Unparsable ∨ data = ParsedNull →
  let r := on_message ws data now rnd rs st in
  sent r = [Send ws (FError "Invalid message format")]
  ∧ state_of r = st
  ∧ ∀ conn, Close conn ∉ sent r.
Proof.
  intros [-> | ->]; cbn.
  all: split_and!; [done|done|].
  all: intros conn Hin%list_elem_of_singleton; discriminate.
Qed.

Lemma malformed_frame_is_answered_witness :
  let r := on_message 1 Unparsable 2000 "a1" all_open alice_alone in
  sent r = [Send 1 (FError "Invalid message format")]
  ∧ state_of r = alice_alone
  ∧ ∀ conn, Close conn ∉ sent r.
Proof.
  apply (malformed_frame_is_answered 1 Unparsable 2000 "a1" all_open alice_alone).
  left. reflexivity.
Defined.

(** The text ["null"] parses, but reading [null.type] throws inside the
    [try]: same answer. *)
Lemma null_frame_is_answered ws now rnd rs st :
  on_message ws ParsedNull now rnd rs st
  = ((), st, [Send ws (FError "Invalid message format")]).
Proof. done. Qed.

(** A JSON number, string, boolean or array has no [type]: the [switch]
    falls to [default], which only logs. *)
Lemma primitive_frame_is_ignored ws now rnd rs st :
  on_message ws ParsedPrimitive now rnd rs st = ((), st, []).
Proof. done. Qed.

(** X12: A JSON object whose [type] is none of the four known kinds, a
    missing [type] included, falls to [default]: nothing is sent, not even
    an error frame, and the state is unchanged. *)
Lemma unknown_type_is_ignored ws m now rnd rs st :
  m_type m ∉ [JStr "register"; JStr "sendMessage"; JStr "getPublicKey"; JStr "ping"] →
  on_message ws (ParsedObject m) now rnd rs st = ((), st, []).
Proof.
  intros Hty. rewrite on_message_other.
  - rewrite decide_False; [done|]. intros H. apply Hty. rewrite H. set_solver.
  - intros H. apply Hty. rewrite H. set_solver.
  - intros H. apply Hty. rewrite H. set_solver.
  - intros H. apply Hty. rewrite H. set_solver.
Qed.

(** ** Looking up a public key *)

(** C10: in every state the server can reach, a [getPublicKey] frame
    without an [accountId] is answered with the single error frame
    ['User not found'], the very answer given for any id that has no
    Account, and the state is unchanged. *)
Theorem getPublicKey_without_id_is_not_found ws m now rnd rs st :
  reachable st →
  m_type m = JStr "getPublicKey" →
  m_accountId m = JUndefined →
  on_message ws (ParsedObject m) now rnd rs st
  = ((), st, [Send ws (FError "User not found")])
  ∧ ∀ m', m_type m' = JStr "getPublicKey" →
          users st !! m_accountId m' = None →
          on_message ws (ParsedObject m') now rnd rs st
          = on_message ws (ParsedObject m) now rnd rs st.
Proof.
  intros Hst Hty Hid.
  assert (on_message ws (ParsedObject m) now rnd rs st
          = ((), st, [Send ws (FError "User not found")])) as Hm.
  { rewrite on_message_getPublicKey by done. unfold handleGetPublicKey.
    cbn. rewrite Hid, undefined_is_no_account by done. done. }
  split; [done|]. intros m' Hty' Hnone. rewrite Hm.
  rewrite on_message_getPublicKey by done. unfold handleGetPublicKey.
  cbn. by rewrite Hnone.
Qed.

Lemma getPublicKey_without_id_is_not_found_witness :
  on_message 2 (ParsedObject (getPublicKey_frame JUndefined)) 9000 "00" all_open bob_awaited
  = ((), bob_awaited, [Send 2 (FError "User not found")]).
Proof.
  refine (proj1 (getPublicKey_without_id_is_not_found 2 (getPublicKey_frame JUndefined)
                   9000 "00" all_open bob_awaited _ _ _)).
  - apply reachable_run.
  - reflexivity.
  - reflexivity.
Defined.

(** * Further properties of the code *)

(** ** Accounts last for the lifetime of the process *)

Section permanence.

Lemma with_connections_same (a : Account) : with_connections (connections a) a = a.
Proof. by destruct a. Qed.

(** One event changes at most the connection set of an account. *)
Lemma step_account st e (k : jsval) (a : Account) :
  users st !! k = Some a →
  ∃ conns, users (step st e) !! k = Some (with_connections conns a).
Proof.
  intros Hk. unfold step.
  assert (∃ conns, users st !! k = Some (with_connections conns a)) as Hsame
    by (exists (connections a); by rewrite with_connections_same).
  destruct e as [ws|ws data now rnd rs|ws|now]; cbn [handle]; try done.
  - pose proof (on_message_state ws data now rnd rs st) as Hst. cbn zeta in Hst.
    destruct Hst as [->|(m & _ & [[_ ->]|[(_ & Hid & _ & [->| ->])|(_ & _ & _ & _ & ->)]])];
      cbn [users with_users with_currentAccountId with_messageQueue]; try done.
    all: destruct (decide (k = m_accountId m)) as [->|Hne];
      [|by rewrite registered_users_lookup].
    all: unfold registered_users; rewrite lookup_alter_eq.
    all: rewrite bool_decide_eq_true_2 by (by rewrite Hk).
    all: rewrite Hk; cbn; eauto.
  - unfold on_close. cbn.
    destruct (truthy _ && bool_decide _); cbn; [|done].
    rewrite lookup_alter. case_decide; [|done].
    subst k. rewrite Hk. cbn. eauto.
Qed.

Lemma run_from_account st es (k : jsval) (a : Account) :
  users st !! k = Some a →
  ∃ conns, users (run_from st es) !! k = Some (with_connections conns a).
Proof.
  revert st a. unfold run_from.
  induction es as [|e es IH]; intros st a Hk.
  - exists (connections a). by rewrite with_connections_same.
  - cbn. destruct (step_account st e k a Hk) as [conns Hstep].
    destruct (IH _ _ Hstep) as [conns' Hrun].
    exists conns'. by rewrite Hrun.
Qed.

End permanence.

(** ** Registration of a new id *)

Lemma registered_users_new ws m now (u : gmap jsval Account) :
  u !! m_accountId m = None →
  registered_users ws m now u
  = <[m_accountId m :=
        mkAccount (m_publicKey m) (or_else (m_username m) (JStr "Anonymous")) [ws] now]> u.
Proof.
  intros Hnew. unfold registered_users.
  rewrite bool_decide_eq_false_2 by (rewrite Hnew; by intros [? ?]).
  apply map_eq. intros k. destruct (decide (m_accountId m = k)) as [<-|Hne].
  - by rewrite lookup_alter_eq, !lookup_insert_eq.
  - by rewrite lookup_alter_ne, !lookup_insert_ne.
Qed.

(** X1: A [register] of an id without an Account that passes the validation
    creates the Account with the frame's key, the frame's username or
    ['Anonymous'], the time of the call and the registering socket as only
    connection, and the directory grows by exactly this entry.  The first
    frame sent is [registered] with the new number of accounts, unless the
    log line cannot convert [accountId] or [username] to a string: then the
    Account is created all the same and the socket gets the error frame of
    the [catch] block instead. *)
Theorem register_creates_account ws m now rnd rs st :
  m_type m = JStr "register" →
  truthy (m_accountId m) = true →
  truthy (m_publicKey m) = true →
  users st !! m_accountId m = None →
  let r := on_message ws (ParsedObject m) now rnd rs st in
  users (state_of r)
  = <[m_accountId m :=
        mkAccount (m_publicKey m)
          (if truthy (m_username m) then m_username m else JStr "Anonymous") [ws] now]>
      (users st)
  ∧ size (users (state_of r)) = S (size (users st))
  ∧ head (sent r)
    = Some (Send ws (if printable (m_accountId m) && printable (m_username m)
                     then FRegistered (m_accountId m) (S (size (users st)))
                     else FError "Invalid message format")).
Proof.
  intros Hty Hid Hpk Hnew r. subst r.
  rewrite on_message_register_users by done.
  rewrite registered_users_new by done.
  rewrite map_size_insert_None by done. split_and!; [done|done|].
  destruct (forallb printable [m_accountId m; m_username m]) eqn:Hlog.
  - cbn in Hlog. rewrite andb_true_r in Hlog. rewrite Hlog.
    apply andb_true_iff in Hlog as [Hpid Hpun].
    rewrite on_message_register_accepted by done.
    unfold sent. cbn [snd head].
    rewrite registered_users_new by done.
    by rewrite map_size_insert_None by done.
  - rewrite on_message_register_thrown by done.
    cbn in Hlog. rewrite andb_true_r in Hlog. by rewrite Hlog.
Qed.

Lemma register_creates_account_witness :
  let m := register_frame (JStr "bob") (JStr "pkB") JUndefined in
  let r := on_message 2 (ParsedObject m) 5000 "00" all_open alice_alone in
  users (state_of r)
  = <[JStr "bob" := mkAccount (JStr "pkB") (JStr "Anonymous") [2%nat] 5000]>
      (users alice_alone)
  ∧ size (users (state_of r)) = S (size (users alice_alone))
  ∧ head (sent r) = Some (Send 2 (FRegistered (JStr "bob") (S (size (users alice_alone))))).
Proof.
  apply (register_creates_account 2 (register_frame (JStr "bob") (JStr "pkB") JUndefined)
           5000 "00" all_open alice_alone).
  - reflexivity.
  - reflexivity.
  - reflexivity.
  - vm_compute. reflexivity.
Defined.

(** X2: A second accepted [register] of the same id on the same socket, with
    whatever key and username, leaves the account directory exactly as the
    first one left it: the socket is not listed twice. *)
Theorem register_again_on_same_socket ws m now rnd rs m' now' rnd' rs' st :
  m_type m = JStr "register" →
  truthy (m_accountId m) = true →
  truthy (m_publicKey m) = true →
  m_type m' = JStr "register" →
  m_accountId m' = m_accountId m →
  truthy (m_publicKey m') = true →
  let st1 := step st (EMessage ws (ParsedObject m) now rnd rs) in
  users (step st1 (EMessage ws (ParsedObject m') now' rnd' rs')) = users st1.
Proof.
  intros Hty Hid Hpk Hty' Hsame Hpk' st1. subst st1. unfold step. cbn [handle].
  rewrite (on_message_register_users ws m') by (by rewrite ?Hsame).
  rewrite (on_message_register_users ws m) by done.
  assert (∃ a1, registered_users ws m now (users st) !! m_accountId m = Some a1
                ∧ ws ∈ connections a1) as (a1 & Ha1 & Hin).
  { unfold registered_users. rewrite lookup_alter_eq.
    destruct (users st !! m_accountId m) as [a|] eqn:Hu.
    - rewrite bool_decide_eq_true_2 by done. rewrite Hu.
      eexists. split; [done|]. cbn [with_connections connections].
      apply elem_of_set_add. by left.
    - rewrite bool_decide_eq_false_2 by (by intros [? ?]).
      rewrite lookup_insert_eq.
      eexists. split; [done|]. cbn [with_connections connections].
      apply elem_of_set_add. by left. }
  unfold registered_users at 1. rewrite Hsame, Ha1.
  rewrite bool_decide_eq_true_2 by done.
  apply map_eq. intros k. rewrite lookup_alter. case_decide; [|done].
  subst k. rewrite Ha1. cbn. f_equal. unfold set_add.
  rewrite decide_True by done. apply with_connections_same.
Qed.

Lemma register_again_on_same_socket_witness :
  users (step (step alice_alone
                 (EMessage 2 (ParsedObject (register_frame (JStr "bob") (JStr "pkB")
                                              JUndefined)) 5000 "00" all_open))
           (EMessage 2 (ParsedObject (register_frame (JStr "bob") (JStr "pkB2") (JStr "Bob")))
              6000 "00" all_open))
  = users (step alice_alone
             (EMessage 2 (ParsedObject (register_frame (JStr "bob") (JStr "pkB") JUndefined))
                5000 "00" all_open)).
Proof.
  apply (register_again_on_same_socket 2
           (register_frame (JStr "bob") (JStr "pkB") JUndefined) 5000 "00" all_open
           (register_frame (JStr "bob") (JStr "pkB2") (JStr "Bob")) 6000 "00" all_open
           alice_alone); reflexivity.
Defined.

(** ** Accounts and published keys are permanent *)

(** X3: Whatever events follow, an Account that exists is never deleted and its
    [publicKey], [username] and [registeredAt] never change. *)
Theorem accounts_are_permanent st es (k : jsval) (a : Account) :
  users st !! k = Some a →
  ∃ a', users (run_from st es) !! k = Some a' ∧ same_identity a a'.
Proof.
  intros Hk. destruct (run_from_account st es k a Hk) as [conns Hrun].
  exists (with_connections conns a). by split.
Qed.

Lemma accounts_are_permanent_witness :
  ∃ a', users (run_from alice_alone
                 [EMessage 1 (ParsedObject (register_frame (JStr "alice") (JStr "pkEve")
                                              (JStr "Eve"))) 7000 "00" all_open;
                  EClose 1; ECleanup 8000]) !! JStr "alice" = Some a'
        ∧ same_identity (mkAccount (JStr "pkA") (JStr "Alice") [1%nat] 1000) a'.
Proof.
  apply (accounts_are_permanent alice_alone).
  vm_compute. reflexivity.
Defined.

(** X4: [getPublicKey] for an id that has an Account answers the asking socket
    with the key and username stored at the first registration, and changes
    nothing; this stays so after any further events, later [register] frames
    with another key included. *)
Theorem published_key_is_permanent st es ws m now rnd rs (a : Account) :
  users st !! m_accountId m = Some a →
  m_type m = JStr "getPublicKey" →
  on_message ws (ParsedObject m) now rnd rs (run_from st es)
  = ((), run_from st es,
     [Send ws (FPublicKey (m_accountId m) (publicKey a) (username a))]).
Proof.
  intros Hk Hty. destruct (run_from_account st es _ a Hk) as [conns Hrun].
  rewrite on_message_getPublicKey by done. unfold handleGetPublicKey.
  cbn. rewrite Hrun. done.
Qed.

Lemma published_key_is_permanent_witness :
  let later :=
    run_from alice_alone
      [EConnection 2;
       EMessage 2 (ParsedObject (register_frame (JStr "alice") (JStr "pkEve") (JStr "Eve")))
         7000 "00" all_open] in
  on_message 3 (ParsedObject (getPublicKey_frame (JStr "alice"))) 8000 "00" all_open later
  = ((), later, [Send 3 (FPublicKey (JStr "alice") (JStr "pkA") (JStr "Alice"))]).
Proof.
  apply (published_key_is_permanent alice_alone _ 3 (getPublicKey_frame (JStr "alice"))
           8000 "00" all_open (mkAccount (JStr "pkA") (JStr "Alice") [1%nat] 1000)).
  - vm_compute. reflexivity.
  - reflexivity.
Defined.

(** ** The health probe *)

Lemma run_from_accounts_grow st es :
  (size (users st) ≤ size (users (run_from st es)))%nat.
Proof.
  rewrite <-!(size_dom (D := gset jsval)). apply subseteq_size.
  intros k [a Hk]%elem_of_dom. apply elem_of_dom.
  destruct (run_from_account st es k a Hk) as [conns Hrun]. eauto.
Qed.

(** X21: The probe answers [/health] with status 200 and the number of Accounts,
    and every other URL with 404.  The number counts the ids ever
    registered, not the sockets that are open: no event makes it smaller, a
    closing connection included. *)
Theorem health_counts_registered_accounts st es now now' (url : string) :
  reported_users (http_request "/health" now st) = Some (size (users st))
  ∧ statusCode (http_request "/health" now st) = 200%nat
  ∧ (url ≠ "/health" →
     http_request url now st = mkHttpResponse 404 None (PlainText "Not Found"))
  ∧ ∃ n', reported_users (http_request "/health" now' (run_from st es)) = Some n'
          ∧ (size (users st) ≤ n')%nat.
Proof.
  split_and!; [done|done| |].
  - intros Hurl. unfold http_request. by rewrite decide_False.
  - eexists. split; [done|]. apply run_from_accounts_grow.
Qed.

(** ** Where frames go *)

Lemma send_without_connections_is_queued_witness :
  let m := sendMessage_frame (JStr "alice") (JStr "bob") (JStr "c1") in
  let p := mkPacket (JStr "alice") (JStr "c1") 2000 "a1" in
  let r := on_message 1 (ParsedObject m) 2000 "a1" all_open alice_alone in
  sent r = [Send 1 (FMessageSent "a1" "queued")]
  ∧ messageQueue (state_of r) !! JStr "bob" = Some [p]
  ∧ (∀ k, k ≠ JStr "bob" → messageQueue (state_of r) !! k = messageQueue alice_alone !! k)
  ∧ users (state_of r) = users alice_alone.
Proof.
  apply (send_without_connections_is_queued 1
           (sendMessage_frame (JStr "alice") (JStr "bob") (JStr "c1"))
           2000 "a1" all_open alice_alone); reflexivity.
Defined.

Lemma send_with_no_open_connection_is_dropped_witness :
  on_message 1 (ParsedObject (sendMessage_frame (JStr "alice") (JStr "bob") (JStr "c1")))
    2000 "a1" two_closing bob_online
  = ((), bob_online, []).
Proof.
  apply (send_with_no_open_connection_is_dropped 1
           (sendMessage_frame (JStr "alice") (JStr "bob") (JStr "c1"))
           2000 "a1" two_closing bob_online
           (mkAccount (JStr "pkB") (JStr "Anonymous") [2%nat] 1000)).
  - reflexivity.
  - reflexivity.
  - reflexivity.
  - reflexivity.
  - vm_compute. reflexivity.
  - discriminate.
  - reflexivity.
Defined.

Lemma unknown_type_is_ignored_witness :
  on_message 1 (ParsedObject (mkMessage (JStr "typing") (JStr "alice") JUndefined JUndefined
                                (JStr "bob") JUndefined JUndefined))
    2000 "a1" all_open alice_alone
  = ((), alice_alone, []).
Proof.
  apply unknown_type_is_ignored. cbn [m_type].
  rewrite !not_elem_of_cons. split_and!; try discriminate. apply not_elem_of_nil.
Defined.

(** X7: A [newMessage] packet produced by a [sendMessage] frame is the packet
    built from that frame, and it is handed only to sockets that are open
    and listed in the connection set of the account named by [to]. *)
Theorem newMessage_goes_to_open_sockets_of_recipient ws m now rnd rs st conn (p : Packet) :
  m_type m = JStr "sendMessage" →
  Send conn (FNewMessage p) ∈ sent (on_message ws (ParsedObject m) now rnd rs st) →
  p = mkPacket (m_from m) (m_encryptedMessage m) now rnd
  ∧ rs conn = OPEN
  ∧ ∃ recipient, users st !! m_to m = Some recipient ∧ conn ∈ connections recipient.
Proof.
  intros Hty.
  destruct (truthy_cases (m_to m)) as [Hto|Hto];
    [destruct (truthy_cases (m_encryptedMessage m)) as [Henc|Henc];
     [destruct (truthy_cases (m_from m)) as [Hfrom|Hfrom]|]|].
  2-4: rewrite on_message_sendMessage_rejected by auto;
       intros Hin%list_elem_of_singleton; discriminate.
  rewrite on_message_sendMessage_accepted by done.
  assert (∀ f, Send conn (FNewMessage p)
               ≠ Send ws (reply_after_log [m_from m; m_to m] (FMessageSent rnd f)))
    as Hreply.
  { intros f. unfold reply_after_log. by destruct (forallb _ _). }
  destruct (users st !! m_to m) as [recipient|] eqn:Hrec; cbn [has_connections from_option].
  - case_bool_decide; unfold sent; cbn [snd].
    + intros [Hin|Hin]%elem_of_app.
      * apply list_elem_of_fmap in Hin as (c & Heq & Hc).
        injection Heq as -> ->.
        apply list_elem_of_filter in Hc as [Hopen Hc]. eauto.
      * case_bool_decide; [|by apply not_elem_of_nil in Hin].
        apply list_elem_of_singleton in Hin. by apply Hreply in Hin.
    + intros Hin%list_elem_of_singleton. by apply Hreply in Hin.
  - unfold sent; cbn [snd]. intros Hin%list_elem_of_singleton. by apply Hreply in Hin.
Qed.

Lemma newMessage_goes_to_open_sockets_of_recipient_witness :
  mkPacket (JStr "alice") (JStr "c1") 2000 "a1"
  = mkPacket (JStr "alice") (JStr "c1") 2000 "a1"
  ∧ all_open 3%nat = OPEN
  ∧ ∃ recipient, users bob_twice !! JStr "bob" = Some recipient
                 ∧ 3%nat ∈ connections recipient.
Proof.
  apply (newMessage_goes_to_open_sockets_of_recipient 1
           (sendMessage_frame (JStr "alice") (JStr "bob") (JStr "c1"))
           2000 "a1" all_open bob_twice 3).
  - reflexivity.
  - vm_compute. apply list_elem_of_In. right. left. reflexivity.
Defined.

(** X8: Whatever arrives on a socket, the server closes no connection in
    response, and the only frames it sends to another socket than the one
    the frame came from are [newMessage] packets. *)
Theorem replies_stay_with_sender ws data now rnd rs st (action : Action) :
  action ∈ sent (on_message ws data now rnd rs st) →
  (∃ f, action = Send ws f) ∨ (∃ conn p, action = Send conn (FNewMessage p)).
Proof.
  destruct data as [| | |m]; cbn.
  1-2: intros ->%list_elem_of_singleton; eauto.
  1: by intros ?%not_elem_of_nil.
  destruct (decide (m_type m = JStr "register")) as [Hreg|Hreg].
  { destruct (truthy_cases (m_accountId m)) as [Hid|Hid];
      [destruct (truthy_cases (m_publicKey m)) as [Hpk|Hpk]|].
    - destruct (forallb printable [m_accountId m; m_username m]) eqn:Hlog.
      + cbn in Hlog. apply andb_true_iff in Hlog as [Hpid Hpun].
        rewrite andb_true_r in Hpun.
        rewrite on_message_register_accepted by done. unfold sent. cbn [snd].
        intros [->|Hin]%elem_of_cons; [eauto|].
        apply list_elem_of_fmap in Hin as (msg & -> & _). eauto.
      + rewrite on_message_register_thrown by done.
        intros ->%list_elem_of_singleton; eauto.
    - rewrite on_message_register_rejected by auto.
      intros ->%list_elem_of_singleton; eauto.
    - rewrite on_message_register_rejected by auto.
      intros ->%list_elem_of_singleton; eauto. }
  destruct (decide (m_type m = JStr "sendMessage")) as [Hsend|Hsend].
  { destruct (truthy_cases (m_to m)) as [Hto|Hto];
      [destruct (truthy_cases (m_encryptedMessage m)) as [Henc|Henc];
       [destruct (truthy_cases (m_from m)) as [Hfrom|Hfrom]|]|].
    2-4: rewrite on_message_sendMessage_rejected by auto;
         intros ->%list_elem_of_singleton; eauto.
    rewrite on_message_sendMessage_accepted by done.
    destruct (has_connections _); unfold sent; cbn [snd].
    - intros [Hin|Hin]%elem_of_app.
      + apply list_elem_of_fmap in Hin as (c & -> & _). eauto.
      + case_bool_decide; [|by apply not_elem_of_nil in Hin].
        apply list_elem_of_singleton in Hin as ->. eauto.
    - intros ->%list_elem_of_singleton; eauto. }
  destruct (decide (m_type m = JStr "getPublicKey")) as [Hget|Hget].
  - rewrite on_message_getPublicKey by done.
    unfold handleGetPublicKey. cbn. destruct (users st !! m_accountId m); cbn.
    all: intros ->%list_elem_of_singleton; eauto.
  - rewrite on_message_other by done. unfold sent. cbn [snd].
    case_decide; [intros ->%list_elem_of_singleton; eauto|].
    by intros ?%not_elem_of_nil.
Qed.

Lemma replies_stay_with_sender_witness :
  (∃ f, Send 2 (FNewMessage (mkPacket (JStr "alice") (JStr "c1") 2000 "a1")) = Send 1 f)
  ∨ (∃ conn p, Send 2 (FNewMessage (mkPacket (JStr "alice") (JStr "c1") 2000 "a1"))
               = Send conn (FNewMessage p)).
Proof.
  apply (replies_stay_with_sender 1
           (ParsedObject (sendMessage_frame (JStr "alice") (JStr "bob") (JStr "c1")))
           2000 "a1" all_open bob_twice).
  vm_compute. apply list_elem_of_In. left. reflexivity.
Defined.

(** ** Which frames change what *)

(** X9: Only a [register] frame touches the account directory or the
    [currentAccountId] of a connection: after any other inbound data, a
    [sendMessage] to an unknown recipient included, both are as before. *)
Theorem only_register_changes_accounts ws data now rnd rs st :
  (∀ m, data = ParsedObject m → m_type m ≠ JStr "register") →
  let r := on_message ws data now rnd rs st in
  users (state_of r) = users st
  ∧ currentAccountId (state_of r) = currentAccountId st
  ∧ clients (state_of r) = clients st.
Proof.
  intros Hnot. cbn zeta.
  pose proof (on_message_state ws data now rnd rs st) as Hst. cbn zeta in Hst.
  destruct Hst as [->|(m & -> & [[Hty _]|[(Hty & _)|(_ & _ & _ & _ & ->)]])];
    try done.
  all: by destruct (Hnot m eq_refl).
Qed.

Lemma only_register_changes_accounts_witness :
  let r := on_message 1
             (ParsedObject (sendMessage_frame (JStr "alice") (JStr "nobody") (JStr "c1")))
             2000 "a1" all_open alice_alone in
  users (state_of r) = users alice_alone
  ∧ currentAccountId (state_of r) = currentAccountId alice_alone
  ∧ clients (state_of r) = clients alice_alone.
Proof.
  apply (only_register_changes_accounts 1
           (ParsedObject (sendMessage_frame (JStr "alice") (JStr "nobody") (JStr "c1")))
           2000 "a1" all_open alice_alone).
  intros m [= <-]. discriminate.
Defined.

(** X10: Inbound data that is neither a [register] nor a [sendMessage] frame
    leaves the whole server state as it is; this covers [getPublicKey],
    [ping], unknown types and everything that is not a JSON object. *)
Theorem lookups_and_pings_change_nothing ws data now rnd rs st :
  (∀ m, data = ParsedObject m →
        m_type m ≠ JStr "register" ∧ m_type m ≠ JStr "sendMessage") →
  state_of (on_message ws data now rnd rs st) = st.
Proof.
  intros Hnot.
  pose proof (on_message_state ws data now rnd rs st) as Hst. cbn zeta in Hst.
  destruct Hst as [->|(m & -> & [[Hty _]|[(Hty & _)|(Hty & _)]])]; try done.
  all: destruct (Hnot m eq_refl) as [Hreg Hsend]; congruence.
Qed.

Lemma lookups_and_pings_change_nothing_witness :
  state_of (on_message 1 (ParsedObject (getPublicKey_frame (JStr "alice")))
              2000 "a1" all_open alice_alone)
  = alice_alone.
Proof.
  apply (lookups_and_pings_change_nothing 1
           (ParsedObject (getPublicKey_frame (JStr "alice"))) 2000 "a1" all_open alice_alone).
  intros m [= <-]. split; discriminate.
Defined.

(** X11: A frame of type ['ping'] is answered with exactly one [pong] on the
    same socket, whatever else the frame carries. *)
Theorem ping_is_answered ws m now rnd rs st :
  m_type m = JStr "ping" →
  on_message ws (ParsedObject m) now rnd rs st = ((), st, [Send ws FPong]).
Proof.
  intros Hty. unfold on_message, dispatch. rewrite Hty.
  rewrite !decide_False by done. by rewrite decide_True.
Qed.

Lemma ping_is_answered_witness :
  on_message 1 (ParsedObject (mkMessage (JStr "ping") JUndefined JUndefined JUndefined
                                (JStr "bob") JUndefined JUndefined))
    2000 "a1" all_open alice_alone
  = ((), alice_alone, [Send 1 FPong]).
Proof. apply ping_is_answered. reflexivity. Defined.

(** ** Offline delivery, end to end *)

(** X13: A [sendMessage] to an id that is unknown or has an empty connection
    set, followed by a [register] of that id that is acknowledged (it passes
    the validation, and the log line can convert its [accountId] and
    [username] to strings), hands the registering socket first the
    [registered] frame, then everything that was queued before, then the new
    packet with the sender's [from] and [encryptedMessage] untouched; the
    queue of that id is gone afterwards. *)
Theorem queued_message_reaches_recipient_on_register
    ws m now rnd rs ws' m' now' rnd' rs' st :
  m_type m = JStr "sendMessage" →
  truthy (m_to m) = true → truthy (m_encryptedMessage m) = true →
  truthy (m_from m) = true →
  has_connections (users st !! m_to m) = false →
  m_type m' = JStr "register" →
  m_accountId m' = m_to m →
  truthy (m_publicKey m') = true →
  printable (m_accountId m') = true →
  printable (m_username m') = true →
  let st1 := step st (EMessage ws (ParsedObject m) now rnd rs) in
  let r := on_message ws' (ParsedObject m') now' rnd' rs' st1 in
  let p := mkPacket (m_from m) (m_encryptedMessage m) now rnd in
  sent r
  = Send ws' (FRegistered (m_to m) (size (users (state_of r))))
      :: map (λ msg, Send ws' (FNewMessage msg))
           (default [] (messageQueue st !! m_to m) ++ [p])
  ∧ messageQueue (state_of r) !! m_to m = None.
Proof.
  intros Hty Hto Henc Hfrom Hoff Hty' Hsame Hpk' Hpid' Hpun' st1 r p.
  assert (st1 = with_messageQueue (enqueued (m_to m) p (messageQueue st)) st) as Hst1.
  { subst st1. unfold step. cbn [handle].
    rewrite on_message_sendMessage_accepted by done.
    by rewrite Hoff. }
  clearbody st1. subst st1 r.
  rewrite on_message_register_accepted by (try done; by rewrite Hsame).
  unfold sent, state_of. cbn [fst snd users messageQueue with_messageQueue].
  rewrite Hsame. unfold enqueued. rewrite lookup_insert_eq.
  split; [done|]. apply lookup_delete_eq.
Qed.

Lemma queued_message_reaches_recipient_on_register_witness :
  let send1 := sendMessage_frame (JStr "alice") (JStr "bob") (JStr "c3") in
  let st1 := step bob_awaited (EMessage 1 (ParsedObject send1) 4000 "a3" all_open) in
  let r := on_message 2 (ParsedObject (register_frame (JStr "bob") (JStr "pkB") JUndefined))
             5000 "00" all_open st1 in
  sent r
  = Send 2 (FRegistered (JStr "bob") (size (users (state_of r))))
      :: map (λ msg, Send 2 (FNewMessage msg))
           (default [] (messageQueue bob_awaited !! JStr "bob")
              ++ [mkPacket (JStr "alice") (JStr "c3") 4000 "a3"])
  ∧ messageQueue (state_of r) !! JStr "bob" = None.
Proof.
  apply (queued_message_reaches_recipient_on_register 1
           (sendMessage_frame (JStr "alice") (JStr "bob") (JStr "c3")) 4000 "a3" all_open
           2 (register_frame (JStr "bob") (JStr "pkB") JUndefined) 5000 "00" all_open
           bob_awaited); reflexivity.
Defined.

(** X14: Sendings to an id that is unknown or has an empty connection set pile up
    behind what was already queued for it, one packet each, in the order in
    which they arrived. *)
Theorem offline_sends_keep_order (to : jsval) (l : list Sending) st :
  truthy to = true →
  has_connections (users st !! to) = false →
  Forall (λ s, truthy (s_from s) = true ∧ truthy (s_payload s) = true) l →
  let st' := run_from st (map (sending_event to) l) in
  default [] (messageQueue st' !! to)
  = default [] (messageQueue st !! to) ++ map sending_packet l
  ∧ users st' = users st.
Proof.
  intros Hto. revert st. unfold run_from.
  induction l as [|s l IH]; intros st Hoff Hall.
  - cbn. by rewrite app_nil_r.
  - apply Forall_cons in Hall as [[Hfrom Hpay] Hall].
    cbn [map foldl].
    assert (step st (sending_event to s)
            = with_messageQueue (enqueued to (sending_packet s) (messageQueue st)) st)
      as Hstep.
    { unfold step, sending_event. cbn [handle].
      rewrite on_message_sendMessage_accepted by done.
      cbn [m_to sendMessage_frame]. by rewrite Hoff. }
    rewrite Hstep.
    destruct (IH (with_messageQueue (enqueued to (sending_packet s) (messageQueue st)) st))
      as [Hq Hu]; [done|done|].
    cbn zeta. rewrite Hq, Hu. split; [|done].
    cbn [messageQueue with_messageQueue]. unfold enqueued.
    rewrite lookup_insert_eq. cbn. by rewrite <-app_assoc.
Qed.

Lemma offline_sends_keep_order_witness :
  let l := [mkSending 1 (JStr "alice") (JStr "c3") 4000 "a3" all_open;
            mkSending 1 (JStr "alice") (JStr "c4") 5000 "a4" all_open] in
  let st' := run_from bob_awaited (map (sending_event (JStr "bob")) l) in
  default [] (messageQueue st' !! JStr "bob")
  = default [] (messageQueue bob_awaited !! JStr "bob") ++ map sending_packet l
  ∧ users st' = users bob_awaited.
Proof.
  apply (offline_sends_keep_order (JStr "bob")
           [mkSending 1 (JStr "alice") (JStr "c3") 4000 "a3" all_open;
            mkSending 1 (JStr "alice") (JStr "c4") 5000 "a4" all_open] bob_awaited).
  - reflexivity.
  - reflexivity.
  - repeat constructor.
Defined.

(** ** A connection that registers and closes *)

Lemma set_delete_add (x : nat) (s : list nat) : set_delete x (set_add x s) = set_delete x s.
Proof.
  unfold set_add, set_delete. case_decide; [done|].
  rewrite filter_app, filter_cons_False, filter_nil by (intros ?; done).
  apply app_nil_r.
Qed.

Lemma not_elem_of_set_delete (x : nat) (s : list nat) : x ∉ set_delete x s.
Proof. rewrite elem_of_set_delete. by intros [? _]. Qed.

Lemma on_close_current ws st (current : jsval) :
  currentAccountId st !! ws = Some current →
  truthy current = true →
  is_Some (users st !! current) →
  state_of (on_close ws st)
  = mkServer
      (alter (λ user, with_connections (set_delete ws (connections user)) user)
         current (users st))
      (messageQueue st) (set_delete ws (clients st)) (currentAccountId st).
Proof.
  intros Hcur Htr Hknown. unfold on_close. cbn.
  rewrite Hcur. cbn. rewrite Htr, bool_decide_eq_true_2 by done. done.
Qed.

(** X15: A [register] that is acknowledged (it passes the validation, and the
    log line can convert its [accountId] and [username] to strings),
    followed by the close of the same socket, leaves the account of that id
    in place, with the socket out of its connection set and the other
    sockets and the stored identity as they were before the [register]; no
    other account is touched. *)
Theorem register_then_close_detaches ws m now rnd rs st :
  m_type m = JStr "register" →
  truthy (m_accountId m) = true →
  truthy (m_publicKey m) = true →
  printable (m_accountId m) = true →
  printable (m_username m) = true →
  let st2 := run_from st [EMessage ws (ParsedObject m) now rnd rs; EClose ws] in
  ∃ a', users st2 !! m_accountId m = Some a'
    ∧ (ws ∉ connections a')
    ∧ connections a'
      = set_delete ws (from_option connections [] (users st !! m_accountId m))
    ∧ (∀ a, users st !! m_accountId m = Some a → same_identity a a')
    ∧ (∀ k, k ≠ m_accountId m → users st2 !! k = users st !! k).
Proof.
  intros Hty Hid Hpk Hpid Hpun st2. subst st2. unfold run_from. cbn [foldl].
  assert (step st (EMessage ws (ParsedObject m) now rnd rs)
          = mkServer (registered_users ws m now (users st))
              (delete (m_accountId m) (messageQueue st)) (clients st)
              (<[ws := m_accountId m]> (currentAccountId st))) as ->.
  { unfold step. cbn [handle]. by rewrite on_message_register_accepted. }
  unfold step. cbn [handle].
  assert (∃ a1, registered_users ws m now (users st) !! m_accountId m = Some a1
                ∧ set_delete ws (connections a1)
                  = set_delete ws (from_option connections [] (users st !! m_accountId m))
                ∧ ∀ a, users st !! m_accountId m = Some a → same_identity a a1)
    as (a1 & Ha1 & Hconns & Hident).
  { unfold registered_users. rewrite lookup_alter_eq.
    destruct (users st !! m_accountId m) as [a|] eqn:Hu.
    - rewrite bool_decide_eq_true_2 by done. rewrite Hu.
      eexists. split; [done|]. cbn [with_connections connections from_option].
      rewrite set_delete_add. split; [done|]. by intros ? [= <-].
    - rewrite bool_decide_eq_false_2 by (by intros [? ?]).
      rewrite lookup_insert_eq.
      eexists. split; [done|]. cbn [with_connections connections from_option].
      rewrite set_delete_add. done. }
  rewrite (on_close_current ws _ (m_accountId m)); cbn [users currentAccountId];
    [|by rewrite lookup_insert_eq|done|by rewrite Ha1].
  exists (with_connections (set_delete ws (connections a1)) a1).
  cbn [users]. split_and!.
  - by rewrite lookup_alter_eq, Ha1.
  - cbn. apply not_elem_of_set_delete.
  - done.
  - intros a Ha. by apply Hident.
  - intros k Hk. rewrite lookup_alter_ne by done. by apply registered_users_lookup.
Qed.

Lemma register_then_close_detaches_witness :
  let m := register_frame (JStr "alice") (JStr "pkA") JUndefined in
  let st2 := run_from bob_awaited [EMessage 2 (ParsedObject m) 6000 "00" all_open; EClose 2] in
  ∃ a', users st2 !! JStr "alice" = Some a'
    ∧ (2%nat ∉ connections a')
    ∧ connections a'
      = set_delete 2 (from_option connections [] (users bob_awaited !! JStr "alice"))
    ∧ (∀ a, users bob_awaited !! JStr "alice" = Some a → same_identity a a')
    ∧ (∀ k, k ≠ JStr "alice" → users st2 !! k = users bob_awaited !! k).
Proof.
  apply (register_then_close_detaches 2
           (register_frame (JStr "alice") (JStr "pkA") JUndefined)
           6000 "00" all_open bob_awaited); reflexivity.
Defined.

(** ** More on the hourly sweep *)

(** X17: A sweep followed by a sweep at the same or a later time leaves the
    state that the later sweep alone would leave; in particular sweeping
    twice at one time is sweeping once. *)
Theorem cleanup_twice now1 now2 st :
  now1 ≤ now2 →
  state_of (cleanup now2 (state_of (cleanup now1 st))) = state_of (cleanup now2 st).
Proof.
  intros Hle. destruct st as [u q c cur]. cbn. unfold with_messageQueue. cbn.
  f_equal. apply map_eq. intros k. rewrite !sweep_lookup.
  destruct (q !! k) as [messages|]; [|done]. cbn zeta.
  assert (filter (λ msg, now2 - timestamp msg < maxAge)
            (filter (λ msg, now1 - timestamp msg < maxAge) messages)
          = filter (λ msg, now2 - timestamp msg < maxAge) messages) as Hff.
  { apply list_filter_filter_l. intros msg. lia. }
  case_decide as Hnil.
  - rewrite Hnil in Hff. cbn in Hff. rewrite <-Hff. by rewrite decide_True.
  - by rewrite Hff.
Qed.

Lemma cleanup_twice_witness :
  state_of (cleanup 700000000 (state_of (cleanup 604802500 bob_awaited)))
  = state_of (cleanup 700000000 bob_awaited).
Proof. apply cleanup_twice. lia. Defined.

(** ** Invariants of every reachable state *)

Section state_invariants.

Lemma filter_all {A} (P : A → Prop) `{!∀ x, Decision (P x)} (l : list A) :
  (∀ x, x ∈ l → P x) → filter P l = l.
Proof.
  induction l as [|x l IH]; intros Hall; [done|].
  rewrite filter_cons_True by (apply Hall; left).
  rewrite IH; [done|]. intros y Hy. apply Hall. by right.
Qed.

Lemma step_keeps_queue_well_formed st e :
  queue_well_formed st → queue_well_formed (step st e).
Proof.
  intros Hinv k queue. unfold step.
  destruct e as [ws|ws data now rnd rs|ws|now]; cbn [handle].
  - cbn. apply Hinv.
  - pose proof (on_message_state ws data now rnd rs st) as Hst. cbn zeta in Hst.
    destruct Hst
      as [->|(m & _ & [[_ ->]|[(_ & _ & _ & [->| ->])|(_ & Hto & Henc & Hfrom & ->)]])];
      cbn [messageQueue with_users with_currentAccountId with_messageQueue];
      try apply Hinv.
    + intros [_ Hq]%lookup_delete_Some. by apply Hinv.
    + unfold enqueued. rewrite lookup_insert.
      case_decide as Hk; [|apply Hinv].
      subst k. intros [= <-]. split_and!; [done| |].
      * by destruct (default [] _).
      * apply Forall_app. split; [|by repeat constructor].
        destruct (messageQueue st !! m_to m) as [old|] eqn:Hold; [|constructor].
        by apply (Hinv _ _ Hold).
  - unfold on_close. cbn. destruct (truthy _ && bool_decide _); cbn; apply Hinv.
  - cbn. rewrite sweep_lookup.
    destruct (messageQueue st !! k) as [messages|] eqn:Hq; [|done].
    cbn zeta. case_decide as Hnil; [done|]. intros [= <-].
    destruct (Hinv _ _ Hq) as (Hk & _ & Hall).
    split_and!; [done|done|].
    apply Forall_forall. intros p [_ Hp]%list_elem_of_filter.
    by apply (proj1 (Forall_forall _ _) Hall).
Qed.

Lemma run_queue_well_formed (es : list Event) : queue_well_formed (run es).
Proof.
  unfold run. induction es as [|e es IH] using rev_ind.
  - intros k queue. cbn. by rewrite lookup_empty.
  - rewrite foldl_app. cbn. by apply step_keeps_queue_well_formed.
Qed.

Lemma step_keeps_connections_NoDup st e :
  connections_NoDup st → connections_NoDup (step st e).
Proof.
  intros Hinv k a'. unfold step.
  assert (∀ ws m now, registered_users ws m now (users st) !! k = Some a' →
                      NoDup (connections a')) as Hreg.
  { intros ws m now. destruct (decide (k = m_accountId m)) as [->|Hne].
    - unfold registered_users. rewrite lookup_alter_eq.
      destruct (users st !! m_accountId m) as [a|] eqn:Hk.
      + rewrite bool_decide_eq_true_2 by done. rewrite Hk.
        intros [= <-]. cbn. apply set_add_NoDup. by eapply Hinv.
      + rewrite bool_decide_eq_false_2 by (by intros [? ?]).
        rewrite lookup_insert_eq. intros [= <-]. cbn. apply NoDup_singleton.
    - rewrite registered_users_lookup by done. apply Hinv. }
  destruct e as [ws|ws data now rnd rs|ws|now]; cbn [handle].
  - cbn. apply Hinv.
  - pose proof (on_message_state ws data now rnd rs st) as Hst. cbn zeta in Hst.
    destruct Hst as [->|(m & _ & [[_ ->]|[(_ & _ & _ & [->| ->])|(_ & _ & _ & _ & ->)]])];
      cbn [users with_users with_currentAccountId with_messageQueue];
      try apply Hinv; apply Hreg.
  - unfold on_close. cbn.
    destruct (truthy _ && bool_decide _); cbn; [|apply Hinv].
    rewrite lookup_alter. case_decide; [|apply Hinv].
    subst k. intros [a [Ha ->]]%fmap_Some. cbn.
    apply NoDup_filter. by eapply Hinv.
  - cbn. apply Hinv.
Qed.

End state_invariants.

(** X19: In every state the server can reach, a stored queue is never empty, its
    key is truthy, and each of its packets carries the truthy [from] and
    [encryptedMessage] that [handleSendMessage] checked. *)
Theorem reachable_queue_well_formed st : reachable st → queue_well_formed st.
Proof.
  induction 1 as [|st e _ IH].
  - intros k queue. cbn. by rewrite lookup_empty.
  - by apply step_keeps_queue_well_formed.
Qed.

Lemma reachable_queue_well_formed_witness : queue_well_formed bob_awaited.
Proof. apply reachable_queue_well_formed. apply reachable_run. Defined.

(** X20: In every state the server can reach, no connection set lists a socket
    twice, however often that socket registered the id: a fan-out hands
    each socket one copy. *)
Theorem reachable_connections_NoDup st : reachable st → connections_NoDup st.
Proof.
  induction 1 as [|st e _ IH].
  - intros k a. cbn. by rewrite lookup_empty.
  - by apply step_keeps_connections_NoDup.
Qed.

Lemma reachable_connections_NoDup_witness : connections_NoDup bob_twice.
Proof. apply reachable_connections_NoDup. apply reachable_run. Defined.

(** X18: A sweep at a time at which every queued message is younger than seven
    days changes nothing at all. *)
Theorem cleanup_spares_fresh_queues now st :
  queue_well_formed st →
  (∀ k queue msg, messageQueue st !! k = Some queue → msg ∈ queue →
                  now - timestamp msg < maxAge) →
  state_of (cleanup now st) = st.
Proof.
  intros Hwf Hfresh. destruct st as [u q c cur]. cbn. unfold with_messageQueue. cbn.
  f_equal. apply map_eq. intros k. rewrite sweep_lookup.
  destruct (q !! k) as [messages|] eqn:Hq; [|done]. cbn zeta.
  rewrite filter_all by (intros msg Hmsg; by eapply (Hfresh k)).
  rewrite decide_False; [done|]. by destruct (Hwf k messages Hq) as (_ & ? & _).
Qed.

Lemma cleanup_spares_fresh_queues_witness :
  state_of (cleanup 50000 bob_awaited) = bob_awaited.
Proof.
  apply cleanup_spares_fresh_queues.
  - apply run_queue_well_formed.
  - intros k queue msg Hq Hmsg.
    apply elem_of_map_to_list in Hq.
    assert (map_to_list (messageQueue bob_awaited)
            = [(JStr "bob", [mkPacket (JStr "alice") (JStr "c1") 2000 "a1";
                             mkPacket (JStr "alice") (JStr "c2") 3000 "a2"])]) as Hl
      by (vm_compute; reflexivity).
    rewrite Hl in Hq. apply list_elem_of_singleton in Hq. injection Hq as -> ->.
    apply list_elem_of_In in Hmsg.
    destruct Hmsg as [<-|[<-|[]]]; reflexivity.
Defined.
